(** * ntl::WmiService (ntl/ntlWmiService.hpp)

    A shallow embedding of the WmiService class: the connection handle that
    owns an IWbemLocator and an IWbemServices reference, applies the proxy
    blanket to the connection, and deletes one WMI object with a
    submit-then-wait call.

    The native COM and WMI entry points are outside the program.  They are
    represented by a [Host]: for every native call it gives the HRESULT the
    call answers with, as a function of the arguments and of the calls made
    so far.  Every native call is taken to return; a wait that never returns
    produces no outcome and has no execution in this model.

    The program is written in a state-and-exception monad over a [World]
    that holds the COM reference counts, the per-thread initialisation
    counts, the proxy blankets, the WmiService objects that are alive, and
    the trace of native calls in the order they were made. *)

From Stdlib Require Import ZArith String List Lia.
From stdpp Require Import base option gmap strings list.

Local Open Scope string_scope.
Local Open Scope Z_scope.
Local Open Scope list_scope.

(** ** Windows SDK constants used by the class *)

(** HRESULT is a signed 32-bit LONG. *)
Abbreviation HRESULT := Z.

(** [#define FAILED(hr) (((HRESULT)(hr)) < 0)] *)
Definition FAILED (hr : HRESULT) : bool := hr <? 0.

Definition S_OK : HRESULT := 0.
(** Failure codes are written as the signed 32-bit values of their
    hexadecimal definitions. *)
Definition WBEM_E_NOT_FOUND : HRESULT := 0x80041002 - 0x100000000.
Definition WBEM_E_ACCESS_DENIED : HRESULT := 0x80041003 - 0x100000000.
Definition WBEM_E_TRANSPORT_FAILURE : HRESULT := 0x80041015 - 0x100000000.
Definition E_OUTOFMEMORY : HRESULT := 0x8007000E - 0x100000000.
Definition E_ACCESSDENIED : HRESULT := 0x80070005 - 0x100000000.

Definition RPC_C_AUTHN_WINNT : Z := 10.
Definition RPC_C_AUTHZ_NONE : Z := 0.
Definition RPC_C_AUTHN_LEVEL_CALL : Z := 3.
Definition RPC_C_IMP_LEVEL_IMPERSONATE : Z := 3.
Definition EOAC_NONE : Z := 0.
Definition WBEM_FLAG_RETURN_IMMEDIATELY : Z := 0x10.
Definition WBEM_INFINITE : Z := 0xFFFFFFFF.

Inductive Clsid := CLSID_WbemLocator.
Inductive Iid := IID_IWbemLocator.

(** ** Native objects, threads and object addresses *)

Abbreviation ObjId := nat.      (* identity of a native COM object *)
Abbreviation ThreadId := nat.
Abbreviation Addr := nat.       (* where a WmiService object lives *)

(** The arguments of CoSetProxyBlanket after the proxy, in the order of
    the call. *)
Record ProxyBlanket := {
  dwAuthnSvc : Z;
  dwAuthzSvc : Z;
  pServerPrincName : option string;
  dwAuthnLevel : Z;
  dwImpLevel : Z;
  pAuthInfo : option ObjId;
  dwCapabilities : Z
}.

(** One native call, with its arguments and what it answered. *)
Inductive Event :=
| EvCoInitializeEx (t : ThreadId) (hr : HRESULT)
| EvCoUninitialize (t : ThreadId)
| EvCoCreateInstance (clsid : Clsid) (iid : Iid) (hr : HRESULT) (out : option ObjId)
| EvConnectServer (locator : ObjId) (strNetworkResource : string)
    (strUser strPassword strLocale : option string) (lSecurityFlags : Z)
    (strAuthority : option string) (pCtx : option ObjId)
    (hr : HRESULT) (out : option ObjId)
| EvCoSetProxyBlanket (proxy : option ObjId) (b : ProxyBlanket) (hr : HRESULT)
| EvDeleteInstance (services : ObjId) (strObjectPath : string) (lFlags : Z)
    (pCtx : option ObjId) (hr : HRESULT) (out : option ObjId)
| EvGetCallStatus (call : ObjId) (lTimeout : Z) (hr : HRESULT) (status : HRESULT).

(** What the native side answers.  Each field is given the trace of the
    calls made before this one. *)
Record Host := {
  host_CoInitializeEx : ThreadId -> list Event -> HRESULT;
  host_CoCreateInstance : Clsid -> Iid -> list Event -> HRESULT;
  host_ConnectServer : ObjId -> string -> list Event -> HRESULT;
  host_CoSetProxyBlanket : option ObjId -> ProxyBlanket -> list Event -> HRESULT;
  host_DeleteInstance : ObjId -> string -> Z -> option ObjId -> list Event -> HRESULT;
  host_GetCallStatus : ObjId -> Z -> list Event -> HRESULT * HRESULT
}.

(** ** The class state *)

(** Modelled from the spec: ntl::ComPtr<T> (ntlComInitialize.hpp is not
    part of the sources).  A shared-ownership pointer to a reference-counted
    native object; a default-constructed pointer is null. *)
Abbreviation ComPtr := (option nat).

(** Modelled from the spec: ntl::ComInitialize (ntlComInitialize.hpp is not
    part of the sources).  The guard is tied to the thread whose
    initialisation it holds. *)
Record ComInitialize := { guard_thread : ThreadId }.

(** The three private members, in declaration order. *)
Record WmiService := {
  coinit : ComInitialize;
  wbemLocator : ComPtr;
  wbemServices : ComPtr
}.

Record World := {
  w_refs : gmap nat nat;               (* COM reference count of each live object *)
  w_next : ObjId;                      (* the next object identity to hand out *)
  w_cominit : gmap nat nat;            (* per thread: initialisations still held *)
  w_blanket : gmap nat ProxyBlanket;   (* the blanket set on a proxy *)
  w_objs : gmap nat WmiService;        (* the WmiService objects that are alive *)
  w_trace : list Event                 (* native calls, oldest first *)
}.

(** Counters kept in a finite map: an absent key counts zero, and a key
    whose count drops to zero is removed. *)
Definition count (m : gmap nat nat) (k : nat) : nat := default 0%nat (m !! k).
Definition incr (k : nat) (m : gmap nat nat) : gmap nat nat := <[k := S (count m k)]> m.
Definition decr (k : nat) (m : gmap nat nat) : gmap nat nat :=
  match count m k with
  | S (S n) => <[k := S n]> m
  | _ => delete k m
  end.

Definition ref_count (w : World) (o : ObjId) : nat := count (w_refs w) o.
Definition com_count (w : World) (t : ThreadId) : nat := count (w_cominit w) t.

Definition set_refs (f : gmap nat nat -> gmap nat nat) (w : World) : World :=
  {| w_refs := f (w_refs w); w_next := w_next w; w_cominit := w_cominit w;
     w_blanket := w_blanket w; w_objs := w_objs w; w_trace := w_trace w |}.
Definition set_cominit (f : gmap nat nat -> gmap nat nat) (w : World) : World :=
  {| w_refs := w_refs w; w_next := w_next w; w_cominit := f (w_cominit w);
     w_blanket := w_blanket w; w_objs := w_objs w; w_trace := w_trace w |}.
Definition set_blanket (f : gmap nat ProxyBlanket -> gmap nat ProxyBlanket) (w : World) : World :=
  {| w_refs := w_refs w; w_next := w_next w; w_cominit := w_cominit w;
     w_blanket := f (w_blanket w); w_objs := w_objs w; w_trace := w_trace w |}.
Definition set_objs (f : gmap nat WmiService -> gmap nat WmiService) (w : World) : World :=
  {| w_refs := w_refs w; w_next := w_next w; w_cominit := w_cominit w;
     w_blanket := w_blanket w; w_objs := f (w_objs w); w_trace := w_trace w |}.
Definition log (e : Event) (w : World) : World :=
  {| w_refs := w_refs w; w_next := w_next w; w_cominit := w_cominit w;
     w_blanket := w_blanket w; w_objs := w_objs w; w_trace := w_trace w ++ [e] |}.

(** A new native object, handed out with one reference. *)
Definition alloc (w : World) : ObjId * World :=
  (w_next w,
   {| w_refs := <[w_next w := 1%nat]> (w_refs w); w_next := S (w_next w);
      w_cominit := w_cominit w; w_blanket := w_blanket w; w_objs := w_objs w;
      w_trace := w_trace w |}).

(** IUnknown::AddRef and IUnknown::Release.  The object goes away with its
    last reference. *)
Definition AddRef (o : ObjId) (w : World) : World := set_refs (incr o) w.
Definition Release (o : ObjId) (w : World) : World := set_refs (decr o) w.

(** ** What is thrown, and from where *)

(** Modelled from the spec: the classes ntl::Exception and
    ntl::WmiException (ntlException.hpp and ntlWmiException.hpp are not part
    of the sources).  The value the caller catches carries the native status
    code, the name of the failing native operation, the name of the failing
    local operation and a flag: the four constructor arguments of the throw
    statements.  The failures raised inside the two helpers that are not
    part of the sources are known by their status code only. *)
Inductive Thrown :=
| ntl_Exception (code : HRESULT) (what : string) (where_ : string) (flag : bool)
| ntl_WmiException (code : HRESULT) (what : string) (where_ : string) (flag : bool)
| guard_failure (code : HRESULT)        (* from ntl::ComInitialize *)
| createInstance_failure (code : HRESULT).  (* from ntl::ComPtr::createInstance *)

Definition thrown_code (e : Thrown) : HRESULT :=
  match e with
  | ntl_Exception c _ _ _ | ntl_WmiException c _ _ _
  | guard_failure c | createInstance_failure c => c
  end.

(** The throw statement an exception left from.  This is bookkeeping of
    the model: the caller receives the [Thrown] value only. *)
Inductive ThrowSite :=
| AtComInitialize      (* inside ntl::ComInitialize::ComInitialize *)
| AtCreateInstance     (* inside ntl::ComPtr::createInstance *)
| AtConnectServer      (* ntlWmiService.hpp line 62 *)
| AtSetProxyBlanket    (* line 76 *)
| AtDeleteInstance     (* line 145 *)
| AtGetCallStatus      (* line 152 *)
| AtCallStatus.        (* line 155 *)

(** How a run of a member function ends.  [Fault] is undefined behaviour:
    a null pointer dereferenced, or an address used that holds no object. *)
Inductive Outcome (A : Type) :=
| Returned (a : A)
| Threw (site : ThrowSite) (e : Thrown)
| Fault.
Arguments Returned {A} a.
Arguments Threw {A} site e.
Arguments Fault {A}.

Definition M (A : Type) : Type := World -> Outcome A * World.

Definition ret {A} (a : A) : M A := fun w => (Returned a, w).
Definition throw {A} (s : ThrowSite) (e : Thrown) : M A := fun w => (Threw s e, w).
Definition fault {A} : M A := fun w => (Fault, w).
Definition bind {A B} (m : M A) (k : A -> M B) : M B :=
  fun w => match m w with
           | (Returned a, w1) => k a w1
           | (Threw s e, w1) => (Threw s e, w1)
           | (Fault, w1) => (Fault, w1)
           end.

Notation "'let*' x ':=' c1 'in' c2" := (bind c1 (fun x => c2))
  (at level 10, x pattern, c1 at level 100, c2 at level 200).

(** The destructors of the locals of a scope run when the scope is left,
    by return or by exception; destructors do not throw. *)
Definition scope {A} (body : M A) (destructors : M unit) : M A :=
  fun w => match body w with
           | (Returned a, w1) => (Returned a, snd (destructors w1))
           | (Threw s e, w1) => (Threw s e, snd (destructors w1))
           | (Fault, w1) => (Fault, w1)
           end.

(** When a constructor body throws, the members already constructed are
    destroyed and the object never comes to exist. *)
Definition unwinding {A} (body : M A) (destructors : M unit) : M A :=
  fun w => match body w with
           | (Threw s e, w1) => (Threw s e, snd (destructors w1))
           | r => r
           end.

Definition get_obj (a : Addr) : M WmiService :=
  fun w => match w_objs w !! a with
           | Some h => (Returned h, w)
           | None => (Fault, w)
           end.
Definition put_obj (a : Addr) (h : WmiService) : M unit :=
  fun w => (Returned tt, set_objs (fun s => <[a := h]> s) w).
Definition del_obj (a : Addr) : M unit :=
  fun w => (Returned tt, set_objs (fun s => delete a s) w).

(** [p->], for a smart pointer [p]. *)
Definition deref (p : ComPtr) : M ObjId :=
  match p with
  | Some o => ret o
  | None => fault
  end.

(** ** The native calls *)

Section WithHost.

Variable host : Host.
Variable tid : ThreadId.     (* the thread that makes the call *)

(** CoInitializeEx on the calling thread.  A call that does not fail is
    counted and has to be paired with a CoUninitialize. *)
Definition CoInitializeEx : M HRESULT :=
  fun w =>
    let hr := host_CoInitializeEx host tid (w_trace w) in
    let w1 := log (EvCoInitializeEx tid hr) w in
    if FAILED hr then (Returned hr, w1)
    else (Returned hr, set_cominit (incr tid) w1).

Definition CoUninitialize (t : ThreadId) : M unit :=
  fun w =>
    (Returned tt, set_cominit (decr t) (log (EvCoUninitialize t) w)).

(** COM out-parameter rule, for the three calls that hand out an object:
    the object is written to the out parameter when the call does not
    fail, with one reference; on failure the out parameter stays null. *)
Definition CoCreateInstance (clsid : Clsid) (iid : Iid) : M (HRESULT * ComPtr) :=
  fun w =>
    let hr := host_CoCreateInstance host clsid iid (w_trace w) in
    if FAILED hr then ((Returned (hr, None)), log (EvCoCreateInstance clsid iid hr None) w)
    else let (o, w1) := alloc w in
         (Returned (hr, Some o), log (EvCoCreateInstance clsid iid hr (Some o)) w1).

Definition IWbemLocator_ConnectServer (locator : ObjId) (strNetworkResource : string)
    (strUser strPassword strLocale : option string) (lSecurityFlags : Z)
    (strAuthority : option string) (pCtx : option ObjId) : M (HRESULT * ComPtr) :=
  fun w =>
    let hr := host_ConnectServer host locator strNetworkResource (w_trace w) in
    if FAILED hr
    then (Returned (hr, None),
          log (EvConnectServer locator strNetworkResource strUser strPassword strLocale
                 lSecurityFlags strAuthority pCtx hr None) w)
    else let (o, w1) := alloc w in
         (Returned (hr, Some o),
          log (EvConnectServer locator strNetworkResource strUser strPassword strLocale
                 lSecurityFlags strAuthority pCtx hr (Some o)) w1).

(** The blanket is set on the proxy when the call does not fail. *)
Definition CoSetProxyBlanket (proxy : option ObjId) (b : ProxyBlanket) : M HRESULT :=
  fun w =>
    let hr := host_CoSetProxyBlanket host proxy b (w_trace w) in
    let w1 := log (EvCoSetProxyBlanket proxy b hr) w in
    match proxy with
    | Some o => if FAILED hr then (Returned hr, w1)
                else (Returned hr, set_blanket (fun m => <[o := b]> m) w1)
    | None => (Returned hr, w1)
    end.

Definition IWbemServices_DeleteInstance (services : ObjId) (strObjectPath : string)
    (lFlags : Z) (pCtx : option ObjId) : M (HRESULT * ComPtr) :=
  fun w =>
    let hr := host_DeleteInstance host services strObjectPath lFlags pCtx (w_trace w) in
    if FAILED hr
    then (Returned (hr, None),
          log (EvDeleteInstance services strObjectPath lFlags pCtx hr None) w)
    else let (o, w1) := alloc w in
         (Returned (hr, Some o),
          log (EvDeleteInstance services strObjectPath lFlags pCtx hr (Some o)) w1).

(** Gives the HRESULT of the call and what it wrote to [*plStatus]. *)
Definition IWbemCallResult_GetCallStatus (call : ObjId) (lTimeout : Z) : M (HRESULT * HRESULT) :=
  fun w =>
    let r := host_GetCallStatus host call lTimeout (w_trace w) in
    (Returned r, log (EvGetCallStatus call lTimeout (fst r) (snd r)) w).

(** ** The ntl helpers the class is built from *)

(** Modelled from the spec: the members of ntl::ComPtr the class uses.
    The default constructor gives a null pointer; [get] and [get_IUnknown]
    give the raw pointer. *)
Definition ComPtr_null : ComPtr := None.
Definition ComPtr_get (p : ComPtr) : option ObjId := p.
Definition ComPtr_get_IUnknown (p : ComPtr) : option ObjId := p.

(** Modelled from the spec: the copy constructor of ntl::ComPtr, "copy
    increments". *)
Definition ComPtr_copy (p : ComPtr) : M ComPtr :=
  fun w => (Returned p, match p with Some o => AddRef o w | None => w end).

(** Modelled from the spec: the destructor of ntl::ComPtr, "destroy
    decrements", with the release "only when the count reaches zero". *)
Definition ComPtr_dtor (p : ComPtr) : M unit :=
  fun w => (Returned tt, match p with Some o => Release o w | None => w end).

(** Modelled from the spec: [operator==] of ntl::ComPtr, identity of the
    native object the two pointers refer to. *)
Definition ComPtr_eq (p q : ComPtr) : bool := bool_decide (p = q).

(** Modelled from the spec: [swap] on two ntl::ComPtr, which exchanges the
    two references and does not fail. *)
Definition ComPtr_swap (p q : ComPtr) : ComPtr * ComPtr := (q, p).

(** Modelled from the spec: ntl::ComPtr<T>::createInstance, the
    "locator-create" step of the connect path: creates the native object,
    or fails with the status code of the creation. *)
Definition ComPtr_createInstance (clsid : Clsid) (iid : Iid) : M ComPtr :=
  let* (hr, p) := CoCreateInstance clsid iid in
  if FAILED hr then throw AtCreateInstance (createInstance_failure hr)
  else ret p.

(** Modelled from the spec: ntl::ComInitialize, "idempotent,
    reference-counted initialization tied to the current thread";
    construction fails "if the underlying initialization cannot be
    established"; "destruction decrements the reference count" and does not
    throw. *)
Definition ComInitialize_ctor : M ComInitialize :=
  let* hr := CoInitializeEx in
  if FAILED hr then throw AtComInitialize (guard_failure hr)
  else ret {| guard_thread := tid |}.
Definition ComInitialize_dtor (g : ComInitialize) : M unit :=
  CoUninitialize (guard_thread g).

(** Modelled from the spec: ntl::ComBstr, an owned copy of the string it
    is built from. *)
Record ComBstr := { bstr : string }.
Definition ComBstr_ctor (s : string) : ComBstr := {| bstr := s |}.
Definition ComBstr_get (b : ComBstr) : string := bstr b.

(** ** class WmiService *)

(** Modelled from the spec: assignment of a temporary to an ntl::ComPtr
    member ([this->wbemLocator = ...]) and the write through
    [this->wbemServices.get_addr_of()], under the spec's ownership rule: the
    member gives up the reference it held and owns the one it is given. *)
Definition take_wbemLocator (this : Addr) (p : ComPtr) : M unit :=
  let* h := get_obj this in
  let* _ := ComPtr_dtor (wbemLocator h) in
  put_obj this {| coinit := coinit h; wbemLocator := p; wbemServices := wbemServices h |}.
Definition take_wbemServices (this : Addr) (p : ComPtr) : M unit :=
  let* h := get_obj this in
  let* _ := ComPtr_dtor (wbemServices h) in
  put_obj this {| coinit := coinit h; wbemLocator := wbemLocator h; wbemServices := p |}.

(** The members are destroyed in the reverse order of their declaration. *)
Definition destroy_members (h : WmiService) : M unit :=
  let* _ := ComPtr_dtor (wbemServices h) in
  let* _ := ComPtr_dtor (wbemLocator h) in
  ComInitialize_dtor (coinit h).

(** The end of the object at [this]: its members are destroyed and the
    address holds no object any more. *)
Definition destroy_object (this : Addr) : M unit :=
  let* h := get_obj this in
  let* _ := destroy_members h in
  del_obj this.

(** [~WmiService() NOEXCEPT]: the body is empty. *)
Definition WmiService_dtor (this : Addr) : M unit :=
  destroy_object this.

(** The body of [explicit WmiService(LPCWSTR _path)], lines 48 to 78. *)
Definition WmiService_ctor_body (this : Addr) (_path : string) : M unit :=
  let* created := ComPtr_createInstance CLSID_WbemLocator IID_IWbemLocator in
  let* _ := take_wbemLocator this created in
  let path := ComBstr_ctor _path in
  let* h := get_obj this in
  let* locator := deref (wbemLocator h) in
  let* (hr, out) := IWbemLocator_ConnectServer locator (ComBstr_get path)
                      None None None 0 None None in
  let* _ := take_wbemServices this out in
  if FAILED hr then
    throw AtConnectServer
      (ntl_Exception hr "IWbemLocator::ConnectServer" "WmiService::connect" false)
  else
    let* h := get_obj this in
    let* hr := CoSetProxyBlanket (ComPtr_get_IUnknown (wbemServices h))
                 {| dwAuthnSvc := RPC_C_AUTHN_WINNT;
                    dwAuthzSvc := RPC_C_AUTHZ_NONE;
                    pServerPrincName := None;
                    dwAuthnLevel := RPC_C_AUTHN_LEVEL_CALL;
                    dwImpLevel := RPC_C_IMP_LEVEL_IMPERSONATE;
                    pAuthInfo := None;
                    dwCapabilities := EOAC_NONE |} in
    if FAILED hr then
      throw AtSetProxyBlanket (ntl_Exception hr "CoSetProxyBlanket" "WmiService::connect" false)
    else ret tt.

(** [explicit WmiService(LPCWSTR _path) : coinit(), wbemLocator(), wbemServices()].
    The object is built in place at [this]. *)
Definition WmiService_ctor (this : Addr) (_path : string) : M unit :=
  let* guard := ComInitialize_ctor in
  let* _ := put_obj this {| coinit := guard; wbemLocator := ComPtr_null;
                            wbemServices := ComPtr_null |} in
  unwinding (WmiService_ctor_body this _path) (destroy_object this).

(** [WmiService(const WmiService& _service) : coinit(),
    wbemLocator(_service.wbemLocator), wbemServices(_service.wbemServices)],
    as the value of the new object. *)
Definition WmiService_copy (_service : WmiService) : M WmiService :=
  let* guard := ComInitialize_ctor in
  let* loc := ComPtr_copy (wbemLocator _service) in
  let* svc := ComPtr_copy (wbemServices _service) in
  ret {| coinit := guard; wbemLocator := loc; wbemServices := svc |}.

(** The copy constructor building the object at [this]. *)
Definition WmiService_copy_ctor (this : Addr) (_service : Addr) : M unit :=
  let* src := get_obj _service in
  let* h := WmiService_copy src in
  put_obj this h.

(** [WmiService& operator=(const WmiService& _service)].  [temp] is a local
    of the call; [*this] and [_service] are objects of the caller and may be
    the same object. *)
Definition WmiService_assign (this : Addr) (_service : Addr) : M unit :=
  let* src := get_obj _service in
  let* temp := WmiService_copy src in
  (* swap(this->wbemLocator, temp.wbemLocator); *)
  let* self := get_obj this in
  let (l_this, l_temp) := ComPtr_swap (wbemLocator self) (wbemLocator temp) in
  let* _ := put_obj this {| coinit := coinit self; wbemLocator := l_this;
                            wbemServices := wbemServices self |} in
  let temp := {| coinit := coinit temp; wbemLocator := l_temp;
                 wbemServices := wbemServices temp |} in
  (* swap(this->wbemServices, temp.wbemServices); *)
  let* self := get_obj this in
  let (s_this, s_temp) := ComPtr_swap (wbemServices self) (wbemServices temp) in
  let* _ := put_obj this {| coinit := coinit self; wbemLocator := wbemLocator self;
                            wbemServices := s_this |} in
  let temp := {| coinit := coinit temp; wbemLocator := wbemLocator temp;
                 wbemServices := s_temp |} in
  (* return *this; temp leaves scope *)
  destroy_members temp.

(** [operator->] and [get()]: the raw IWbemServices pointer. *)
Definition WmiService_get (h : WmiService) : option ObjId := ComPtr_get (wbemServices h).

(** [operator==] and [operator!=]. *)
Definition WmiService_eq (h _service : WmiService) : bool :=
  ComPtr_eq (wbemLocator h) (wbemLocator _service) &&
  ComPtr_eq (wbemServices h) (wbemServices _service).
Definition WmiService_ne (h _service : WmiService) : bool :=
  negb (WmiService_eq h _service).

(** [void delete_path(LPCWSTR _objPath, const ComPtr<IWbemContext>& _context)].
    [result] is a local smart pointer, released when the call is left. *)
Definition delete_path (this : Addr) (_objPath : string) (_context : ComPtr) : M unit :=
  let bstrObjectPath := ComBstr_ctor _objPath in
  let* h := get_obj this in
  let* services := deref (wbemServices h) in
  let* (hr, result) := IWbemServices_DeleteInstance services (ComBstr_get bstrObjectPath)
                         WBEM_FLAG_RETURN_IMMEDIATELY (ComPtr_get _context) in
  scope
    (if FAILED hr then
       throw AtDeleteInstance
         (ntl_WmiException hr "IWbemServices::DeleteInstance" "WmiService::delete_path" false)
     else
       (* wait for the call to complete *)
       let* call := deref result in
       let* (hr, status) := IWbemCallResult_GetCallStatus call WBEM_INFINITE in
       if FAILED hr then
         throw AtGetCallStatus
           (ntl_WmiException hr "IWbemCallResult::GetCallStatus" "WmiService::delete_path" false)
       else if FAILED status then
         throw AtCallStatus
           (ntl_WmiException status "IWbemServices::DeleteInstance" "WmiService::delete_path" false)
       else ret tt)
    (ComPtr_dtor result).

(** [void delete_path(LPCWSTR _objPath)]. *)
Definition delete_path_no_context (this : Addr) (_objPath : string) : M unit :=
  let null_context := ComPtr_null in
  scope (delete_path this _objPath null_context) (ComPtr_dtor null_context).

End WithHost.

(** ** The failures of the spec *)

(** Following the spec's error taxonomy: the failure each throw statement
    stands for, with its stage tag and the status code it carries. *)
Inductive ConnectStage := stage_locator_create | stage_connect.
Inductive OperationStage := stage_submit | stage_await_status | stage_completed.
Inductive SpecError :=
| SubsystemInitError (statusCode : HRESULT)
| ConnectionError (stage : ConnectStage) (statusCode : HRESULT)
| SecurityConfigurationError (statusCode : HRESULT)
| OperationError (stage : OperationStage) (statusCode : HRESULT).

Definition spec_error (s : ThrowSite) (e : Thrown) : SpecError :=
  match s with
  | AtComInitialize => SubsystemInitError (thrown_code e)
  | AtCreateInstance => ConnectionError stage_locator_create (thrown_code e)
  | AtConnectServer => ConnectionError stage_connect (thrown_code e)
  | AtSetProxyBlanket => SecurityConfigurationError (thrown_code e)
  | AtDeleteInstance => OperationError stage_submit (thrown_code e)
  | AtGetCallStatus => OperationError stage_await_status (thrown_code e)
  | AtCallStatus => OperationError stage_completed (thrown_code e)
  end.

(** The spec-level failure of an outcome, if it is one. *)
Definition failure {A} (r : Outcome A) : option SpecError :=
  match r with
  | Threw s e => Some (spec_error s e)
  | _ => None
  end.

(** The value the caller catches, if the outcome is a failure. *)
Definition caught {A} (r : Outcome A) : option Thrown :=
  match r with
  | Threw _ e => Some e
  | _ => None
  end.

Definition is_submit (e : Event) : bool :=
  match e with EvDeleteInstance _ _ _ _ _ _ => true | _ => false end.
Definition is_wait (e : Event) : bool :=
  match e with EvGetCallStatus _ _ _ _ => true | _ => false end.
Definition is_blanket (e : Event) : bool :=
  match e with EvCoSetProxyBlanket _ _ _ => true | _ => false end.

(** Whether an outcome is a failure of the delete operation at the given
    stage. *)
Definition fails_at_stage {A} (r : Outcome A) (st : OperationStage) : Prop :=
  exists code, failure r = Some (OperationError st code).

(** ** The native answers a call to delete_path meets

    For a call made in world [w] through the connection [services]: what
    the submit answers, the world once the call result has been handed
    out, and what the wait on that call result answers. *)
Definition submit_hr (host : Host) (services : ObjId) (_objPath : string)
    (_context : ComPtr) (w : World) : HRESULT :=
  host_DeleteInstance host services _objPath WBEM_FLAG_RETURN_IMMEDIATELY _context (w_trace w).
Definition submit_event (host : Host) (services : ObjId) (_objPath : string)
    (_context : ComPtr) (w : World) (out : option ObjId) : Event :=
  EvDeleteInstance services _objPath WBEM_FLAG_RETURN_IMMEDIATELY _context
    (submit_hr host services _objPath _context w) out.
Definition after_submit (host : Host) (services : ObjId) (_objPath : string)
    (_context : ComPtr) (w : World) : World :=
  log (submit_event host services _objPath _context w (Some (w_next w))) (snd (alloc w)).
Definition wait_answer (host : Host) (services : ObjId) (_objPath : string)
    (_context : ComPtr) (w : World) : HRESULT * HRESULT :=
  host_GetCallStatus host (w_next w) WBEM_INFINITE
    (w_trace (after_submit host services _objPath _context w)).
Definition wait_event (host : Host) (services : ObjId) (_objPath : string)
    (_context : ComPtr) (w : World) : Event :=
  EvGetCallStatus (w_next w) WBEM_INFINITE
    (fst (wait_answer host services _objPath _context w))
    (snd (wait_answer host services _objPath _context w)).

(** The native operation a failure of delete_path names, by stage, as the
    three throw statements of delete_path have it. *)
Definition named_operation (st : OperationStage) : string :=
  match st with
  | stage_submit => "IWbemServices::DeleteInstance"
  | stage_await_status => "IWbemCallResult::GetCallStatus"
  | stage_completed => "IWbemServices::DeleteInstance"
  end.

(** ** Calls on handles that exist

    The member functions that run against the world, other than the
    connecting constructor.  [operator->], [get], [operator==] and
    [operator!=] only read the handle. *)
Inductive Call :=
| call_copy_ctor (this _service : Addr)
| call_assign (this _service : Addr)
| call_dtor (this : Addr)
| call_delete_path (this : Addr) (_objPath : string) (_context : ComPtr)
| call_delete_path_no_context (this : Addr) (_objPath : string).

Definition run_call (host : Host) (tid : ThreadId) (c : Call) : M unit :=
  match c with
  | call_copy_ctor this _service => WmiService_copy_ctor host tid this _service
  | call_assign this _service => WmiService_assign host tid this _service
  | call_dtor this => WmiService_dtor this
  | call_delete_path this _objPath _context => delete_path host this _objPath _context
  | call_delete_path_no_context this _objPath => delete_path_no_context host this _objPath
  end.

(** A sequence of calls, each made by some thread, one after the other
    whatever their outcomes. *)
Fixpoint run_calls (host : Host) (cs : list (ThreadId * Call)) (w : World) : World :=
  match cs with
  | [] => w
  | (t, c) :: rest => run_calls host rest (snd (run_call host t c w))
  end.

(** The CoSetProxyBlanket calls made so far. *)
Definition blanket_events (w : World) : list Event :=
  filter (fun e => is_blanket e = true) (w_trace w).

(** A computation that neither sets a blanket nor calls CoSetProxyBlanket. *)
Definition keeps_blanket {A} (m : M A) : Prop :=
  forall w, w_blanket (snd (m w)) = w_blanket w /\
            blanket_events (snd (m w)) = blanket_events w.

(** The object identities not handed out yet belong to no live object. *)
Definition fresh_ids (w : World) : Prop :=
  forall o : ObjId, (w_next w <= o)%nat -> w_refs w !! o = None.

(** ** Sample hosts and worlds *)

(** A host on which every native call succeeds. *)
Definition host_ok : Host :=
  {| host_CoInitializeEx := fun _ _ => S_OK;
     host_CoCreateInstance := fun _ _ _ => S_OK;
     host_ConnectServer := fun _ _ _ => S_OK;
     host_CoSetProxyBlanket := fun _ _ _ => S_OK;
     host_DeleteInstance := fun _ _ _ _ _ => S_OK;
     host_GetCallStatus := fun _ _ _ => (S_OK, S_OK) |}.

(** The same host with another answer to the submit, or to the wait. *)
Definition with_DeleteInstance (hr : HRESULT) (host : Host) : Host :=
  {| host_CoInitializeEx := host_CoInitializeEx host;
     host_CoCreateInstance := host_CoCreateInstance host;
     host_ConnectServer := host_ConnectServer host;
     host_CoSetProxyBlanket := host_CoSetProxyBlanket host;
     host_DeleteInstance := fun _ _ _ _ _ => hr;
     host_GetCallStatus := host_GetCallStatus host |}.
Definition with_GetCallStatus (r : HRESULT * HRESULT) (host : Host) : Host :=
  {| host_CoInitializeEx := host_CoInitializeEx host;
     host_CoCreateInstance := host_CoCreateInstance host;
     host_ConnectServer := host_ConnectServer host;
     host_CoSetProxyBlanket := host_CoSetProxyBlanket host;
     host_DeleteInstance := host_DeleteInstance host;
     host_GetCallStatus := fun _ _ _ => r |}.

(** A host on which thread 1 has no resources left to initialise COM:
    CoInitializeEx answers E_OUTOFMEMORY there and succeeds on every other
    thread. *)
Definition host_thread1_exhausted : Host :=
  {| host_CoInitializeEx :=
       fun t _ => if Nat.eqb t 1 then E_OUTOFMEMORY else S_OK;
     host_CoCreateInstance := fun _ _ _ => S_OK;
     host_ConnectServer := fun _ _ _ => S_OK;
     host_CoSetProxyBlanket := fun _ _ _ => S_OK;
     host_DeleteInstance := fun _ _ _ _ _ => S_OK;
     host_GetCallStatus := fun _ _ _ => (S_OK, S_OK) |}.

(** The same host with another answer to CoSetProxyBlanket. *)
Definition with_CoSetProxyBlanket (hr : HRESULT) (host : Host) : Host :=
  {| host_CoInitializeEx := host_CoInitializeEx host;
     host_CoCreateInstance := host_CoCreateInstance host;
     host_ConnectServer := host_ConnectServer host;
     host_CoSetProxyBlanket := fun _ _ _ => hr;
     host_DeleteInstance := host_DeleteInstance host;
     host_GetCallStatus := host_GetCallStatus host |}.

Definition empty_world : World :=
  {| w_refs := ∅; w_next := 0%nat; w_cominit := ∅; w_blanket := ∅; w_objs := ∅;
     w_trace := [] |}.

(** A WMI namespace path. *)
Definition sample_namespace : string := "ROOT\StandardCimv2".

(** The world after a handle for that namespace has been built at
    address 0 by thread 0, and the handle that lives there. *)
Definition connected_world : World :=
  snd (WmiService_ctor host_ok 0%nat 0%nat sample_namespace empty_world).
Definition connected_handle : WmiService :=
  {| coinit := {| guard_thread := 0%nat |}; wbemLocator := Some 0%nat;
     wbemServices := Some 1%nat |}.

(** The world after a second handle for the same namespace has been built
    at address 1 by thread 0, and the handle that lives there. *)
Definition two_handles_world : World :=
  snd (WmiService_ctor host_ok 0%nat 1%nat sample_namespace connected_world).
Definition second_handle : WmiService :=
  {| coinit := {| guard_thread := 0%nat |}; wbemLocator := Some 2%nat;
     wbemServices := Some 3%nat |}.

(** The object path of the comment above delete_path. *)
Definition sample_path : string := "MyClass.MyProperty1='33',MyProperty2='value'".

(** Unfolds the monad, the native calls and the helpers, and normalises
    the projections of the world, on both sides of a goal. *)
Ltac run_model :=
  cbv beta iota zeta delta
    [bind ret throw fault scope unwinding get_obj put_obj del_obj deref
     CoInitializeEx CoUninitialize CoCreateInstance IWbemLocator_ConnectServer
     CoSetProxyBlanket IWbemServices_DeleteInstance IWbemCallResult_GetCallStatus
     ComPtr_null ComPtr_get ComPtr_get_IUnknown ComPtr_copy ComPtr_dtor ComPtr_swap
     ComPtr_createInstance ComInitialize_ctor ComInitialize_dtor
     ComBstr_ctor ComBstr_get bstr
     submit_hr submit_event after_submit wait_answer wait_event
     alloc log AddRef Release set_refs set_cominit set_blanket set_objs
     w_trace w_next w_refs w_cominit w_blanket w_objs fst snd].


Ltac open_ctor :=
  unfold WmiService_ctor, WmiService_ctor_body, WmiService_dtor, destroy_object,
    destroy_members,
    take_wbemLocator, take_wbemServices;
  run_model; cbn [coinit wbemLocator wbemServices guard_thread].

Ltac on_answer H :=
  rewrite ?H; cbv beta iota zeta;
  rewrite ?lookup_insert_eq; cbv beta iota zeta;
  cbn [coinit wbemLocator wbemServices guard_thread default].

Ltac open_assign :=
  unfold WmiService_assign, WmiService_copy_ctor, WmiService_copy, destroy_object,
    destroy_members;
  run_model; cbn [coinit wbemLocator wbemServices guard_thread].

(** The same steps on a hypothesis [H : program w = (out, w')], so that the
    program is unfolded once. *)
Ltac run_model_in H :=
  cbv beta iota zeta delta
    [bind ret throw fault scope unwinding get_obj put_obj del_obj deref
     CoInitializeEx CoUninitialize CoCreateInstance IWbemLocator_ConnectServer
     CoSetProxyBlanket IWbemServices_DeleteInstance IWbemCallResult_GetCallStatus
     ComPtr_null ComPtr_get ComPtr_get_IUnknown ComPtr_copy ComPtr_dtor ComPtr_swap
     ComPtr_createInstance ComInitialize_ctor ComInitialize_dtor
     ComBstr_ctor ComBstr_get bstr
     submit_hr submit_event after_submit wait_answer wait_event
     alloc log AddRef Release set_refs set_cominit set_blanket set_objs
     w_trace w_next w_refs w_cominit w_blanket w_objs fst snd] in H.

Ltac open_ctor_in H :=
  unfold WmiService_ctor, WmiService_ctor_body, WmiService_dtor, destroy_object,
    destroy_members, take_wbemLocator, take_wbemServices in H;
  run_model_in H; cbn [coinit wbemLocator wbemServices guard_thread] in H.

Ltac open_assign_in H :=
  unfold WmiService_assign, WmiService_copy_ctor, WmiService_copy, WmiService_dtor,
    destroy_object, destroy_members in H;
  run_model_in H; cbn [coinit wbemLocator wbemServices guard_thread] in H.

Ltac on_answer_in H Ha :=
  rewrite ?Ha in H; cbv beta iota zeta in H;
  rewrite ?lookup_insert_eq in H; cbv beta iota zeta in H;
  cbn [coinit wbemLocator wbemServices guard_thread default] in H.

(** Case analysis on whether the next native call [f] of the run in [H]
    failed. *)
Ltac split_answer H f Ha :=
  match type of H with
  | context [FAILED (f ?a ?b ?c ?d)] => destruct (FAILED (f a b c d)) eqn:Ha
  | context [FAILED (f ?a ?b ?c)] => destruct (FAILED (f a b c)) eqn:Ha
  end; on_answer_in H Ha.

(** The same, giving the answer of the call the name [hr]. *)
Ltac name_answer H f hr Ha :=
  match type of H with
  | context [f ?a ?b ?c ?d] => set (hr := f a b c d) in H
  | context [f ?a ?b ?c] => set (hr := f a b c) in H
  end; destruct (FAILED hr) eqn:Ha; on_answer_in H Ha.

(** The run in [H] has ended: its outcome and its world replace the names
    they were given. *)
Ltac done_run H :=
  injection H as <- <-; cbn [w_objs w_refs w_cominit w_blanket w_trace w_next].


(** ** Every member function as an operation *)

(** The connecting constructor beside the calls on handles that exist. *)
Inductive Op :=
| op_ctor (this : Addr) (_path : string)
| op_call (c : Call).

Definition run_op (host : Host) (tid : ThreadId) (o : Op) : M unit :=
  match o with
  | op_ctor this _path => WmiService_ctor host tid this _path
  | op_call c => run_call host tid c
  end.

(** A sequence of operations, each made by some thread, one after the
    other whatever their outcomes. *)
Fixpoint run_ops (host : Host) (ops : list (ThreadId * Op)) (w : World) : World :=
  match ops with
  | [] => w
  | (t, o) :: rest => run_ops host rest (snd (run_op host t o w))
  end.

(** A smart pointer that is not null and refers to an object identity the
    world has handed out. *)
Definition allocated (w : World) (p : ComPtr) : Prop :=
  exists o : ObjId, p = Some o /\ (o < w_next w)%nat.

(** The state the class keeps: the identities not handed out are unused,
    and every handle that exists has an allocated locator and an allocated
    connection. *)
Definition well_formed (w : World) : Prop :=
  fresh_ids w /\
  forall (a : Addr) (h : WmiService), w_objs w !! a = Some h ->
    allocated w (wbemLocator h) /\ allocated w (wbemServices h).

(** Whether a smart pointer refers to the object [o], as a count. *)
Definition refers (p : ComPtr) (o : ObjId) : nat :=
  if decide (p = Some o) then 1%nat else 0%nat.

(** The world after a copy of the first handle has been built at address 2
    by thread 0, and the handle that lives there. *)
Definition copied_world : World :=
  snd (WmiService_copy_ctor host_ok 0%nat 2%nat 0%nat two_handles_world).
Definition copied_handle : WmiService :=
  {| coinit := {| guard_thread := 0%nat |}; wbemLocator := Some 0%nat;
     wbemServices := Some 1%nat |}.
(** * Properties *)

(** ** Counters *)

Lemma count_insert (m : gmap nat nat) (k t n : nat) :
  count (<[k := n]> m) t = if decide (k = t) then n else count m t.
Proof.
  unfold count. rewrite lookup_insert. destruct (decide (k = t)); reflexivity.
Qed.

Lemma count_delete (m : gmap nat nat) (k t : nat) :
  count (delete k m) t = if decide (k = t) then 0%nat else count m t.
Proof.
  unfold count. rewrite lookup_delete. destruct (decide (k = t)); reflexivity.
Qed.

Lemma count_incr (m : gmap nat nat) (k t : nat) :
  count (incr k m) t = if decide (k = t) then S (count m k) else count m t.
Proof. unfold incr. apply count_insert. Qed.

Lemma count_decr (m : gmap nat nat) (k t : nat) :
  count (decr k m) t = if decide (k = t) then Nat.pred (count m k) else count m t.
Proof.
  unfold decr. destruct (count m k) as [|[|n]] eqn:E.
  - rewrite count_delete. destruct (decide (k = t)); reflexivity.
  - rewrite count_delete. destruct (decide (k = t)); reflexivity.
  - rewrite count_insert. destruct (decide (k = t)); reflexivity.
Qed.

(** Taking a reference and giving it back leaves every count as it was. *)
Lemma count_decr_incr (m : gmap nat nat) (k t : nat) :
  count (decr k (incr k m)) t = count m t.
Proof.
  rewrite count_decr, !count_incr.
  destruct (decide (k = t)) as [->|]; [|reflexivity].
  destruct (decide (t = t)); [reflexivity|congruence].
Qed.

(** Settles a goal on counts after insertions, deletions and updates. *)
Ltac counts :=
  repeat first
    [ rewrite count_decr_incr
    | rewrite count_decr
    | rewrite count_incr
    | rewrite count_insert
    | rewrite count_delete ];
  repeat match goal with
    | |- context [decide (?a = ?b)] => destruct (decide (a = b)); try lia; subst
    end;
  cbn [Nat.pred]; try reflexivity; try lia.

(** ** delete_path *)

Section DeletePath.

Variable host : Host.
Variables (this : Addr) (h : WmiService) (services : ObjId).
Variables (_objPath : string) (_context : ComPtr).
Variable w : World.
Hypothesis Hlive : w_objs w !! this = Some h.
Hypothesis Hconnected : wbemServices h = Some services.

Local Abbreviation hr_submit := (submit_hr host services _objPath _context w).
Local Abbreviation answer := (wait_answer host services _objPath _context w).

(** The whole run of delete_path on a connected handle. *)
Lemma delete_path_run :
  delete_path host this _objPath _context w =
  if FAILED hr_submit then
    (Threw AtDeleteInstance
       (ntl_WmiException hr_submit "IWbemServices::DeleteInstance" "WmiService::delete_path" false),
     log (submit_event host services _objPath _context w None) w)
  else
    (if FAILED (fst answer) then
       Threw AtGetCallStatus
         (ntl_WmiException (fst answer) "IWbemCallResult::GetCallStatus"
            "WmiService::delete_path" false)
     else if FAILED (snd answer) then
       Threw AtCallStatus
         (ntl_WmiException (snd answer) "IWbemServices::DeleteInstance"
            "WmiService::delete_path" false)
     else Returned tt,
     Release (w_next w)
       (log (wait_event host services _objPath _context w)
          (after_submit host services _objPath _context w))).
Proof.
  unfold delete_path, bind, get_obj. rewrite Hlive, Hconnected.
  run_model.
  destruct (FAILED (host_DeleteInstance _ _ _ _ _ _)) eqn:Hs;
    cbv beta iota; rewrite ?Hs; [reflexivity|].
  destruct (host_GetCallStatus _ _ _ _) as [hr status]. cbv beta iota.
  destruct (FAILED hr); [reflexivity|].
  destruct (FAILED status); reflexivity.
Qed.

(** C1: delete_path fails at the submit stage exactly when DeleteInstance
    fails, and then no GetCallStatus is made; after a successful submit it
    fails at the await-status stage exactly when GetCallStatus fails; after a
    successful GetCallStatus it fails at the completed stage exactly when the
    reported status is a failure, carrying that status; otherwise it returns.
    These are the only outcomes, and the run makes one submit and at most one
    wait. *)
Theorem delete_path_stages :
  let run := delete_path host this _objPath _context w in
  (fails_at_stage (fst run) stage_submit <-> FAILED hr_submit = true) /\
  (FAILED hr_submit = true ->
     failure (fst run) = Some (OperationError stage_submit hr_submit)) /\
  (FAILED hr_submit = false ->
     (fails_at_stage (fst run) stage_await_status <-> FAILED (fst answer) = true) /\
     (FAILED (fst answer) = true ->
        failure (fst run) = Some (OperationError stage_await_status (fst answer)))) /\
  (FAILED hr_submit = false -> FAILED (fst answer) = false ->
     (fails_at_stage (fst run) stage_completed <-> FAILED (snd answer) = true) /\
     (FAILED (snd answer) = true ->
        failure (fst run) = Some (OperationError stage_completed (snd answer)))) /\
  (FAILED hr_submit = false -> FAILED (fst answer) = false ->
     FAILED (snd answer) = false -> fst run = Returned tt) /\
  (fst run = Returned tt \/ fails_at_stage (fst run) stage_submit \/
   fails_at_stage (fst run) stage_await_status \/
   fails_at_stage (fst run) stage_completed) /\
  (exists made, w_trace (snd run) = w_trace w ++ made /\
     length (filter (fun e => is_submit e = true) made) = 1%nat /\
     length (filter (fun e => is_wait e = true) made) =
       if FAILED hr_submit then 0%nat else 1%nat).
Proof.
  cbv zeta. rewrite delete_path_run. unfold fails_at_stage.
  assert (Htrace : forall o, w_trace (Release o
            (log (wait_event host services _objPath _context w)
               (after_submit host services _objPath _context w))) =
          w_trace w ++ [submit_event host services _objPath _context w (Some (w_next w));
                        wait_event host services _objPath _context w]).
  { intros o. unfold Release, after_submit. cbn [w_trace set_refs log alloc snd].
    rewrite <- app_assoc. reflexivity. }
  destruct (FAILED hr_submit) eqn:Hs;
    [|destruct (FAILED (fst answer)) eqn:Ha;
      [|destruct (FAILED (snd answer)) eqn:Hst]];
    cbn [fst snd failure spec_error thrown_code];
    repeat match goal with
      | |- _ /\ _ => split
      | |- _ <-> _ => split
      | |- _ -> _ => intro
      | H : exists _, _ |- _ => destruct H
      | H : Some _ = Some _ |- _ => discriminate H
      | H : None = Some _ |- _ => discriminate H
      | H : true = false |- _ => discriminate H
      | H : false = true |- _ => discriminate H
      end;
    try reflexivity;
    try (eexists; reflexivity);
    try (left; reflexivity);
    try (right; left; eexists; reflexivity);
    try (right; right; left; eexists; reflexivity);
    try (right; right; right; eexists; reflexivity);
    try (eexists; split; [apply Htrace|split; reflexivity]);
    try (eexists; split; [reflexivity|split; reflexivity]).
Qed.

(** C8: the native calls delete_path makes are the submit, in
    return-immediately mode, and then, only when the submit did not fail,
    one wait on the call result the submit handed out, with the timeout
    WBEM_INFINITE.  It makes no other native call. *)
Theorem delete_path_submit_then_wait :
  w_trace (snd (delete_path host this _objPath _context w)) =
  w_trace w ++
  (if FAILED hr_submit then
     [EvDeleteInstance services _objPath WBEM_FLAG_RETURN_IMMEDIATELY _context hr_submit None]
   else
     [EvDeleteInstance services _objPath WBEM_FLAG_RETURN_IMMEDIATELY _context hr_submit
        (Some (w_next w));
      EvGetCallStatus (w_next w) WBEM_INFINITE (fst answer) (snd answer)]).
Proof.
  rewrite delete_path_run.
  destruct (FAILED hr_submit); cbn [snd]; [reflexivity|].
  unfold Release, after_submit. cbn [w_trace set_refs log].
  rewrite <- app_assoc. reflexivity.
Qed.

(** The value a failing delete_path throws, by stage. *)
Lemma delete_path_caught (st : OperationStage) (code : HRESULT) :
  failure (fst (delete_path host this _objPath _context w)) = Some (OperationError st code) ->
  caught (fst (delete_path host this _objPath _context w)) =
  Some (ntl_WmiException code (named_operation st) "WmiService::delete_path" false).
Proof.
  rewrite delete_path_run.
  destruct (FAILED hr_submit);
    [|destruct (FAILED (fst answer)); [|destruct (FAILED (snd answer))]];
    cbn [fst failure caught spec_error thrown_code]; intros Hf;
    try discriminate Hf; injection Hf as <- <-; reflexivity.
Qed.

End DeletePath.

(** C1, at a sample call: on a host where every call succeeds, delete_path
    on the connected handle returns. *)
Lemma delete_path_stages_witness :
  w_objs connected_world !! 0%nat = Some connected_handle /\
  wbemServices connected_handle = Some 1%nat /\
  fst (delete_path host_ok 0%nat sample_path None connected_world) = Returned tt.
Proof.
  assert (Hlive : w_objs connected_world !! 0%nat = Some connected_handle)
    by (vm_compute; reflexivity).
  assert (Hconn : wbemServices connected_handle = Some 1%nat) by reflexivity.
  split; [exact Hlive|]. split; [exact Hconn|].
  destruct (delete_path_stages host_ok 0%nat connected_handle 1%nat sample_path None
              connected_world Hlive Hconn) as (_ & _ & _ & _ & Hret & _).
  apply Hret; reflexivity.
Defined.

(** C8, at a sample call: the trace of the call above ends with the submit
    followed by the wait with WBEM_INFINITE. *)
Lemma delete_path_submit_then_wait_witness :
  w_objs connected_world !! 0%nat = Some connected_handle /\
  wbemServices connected_handle = Some 1%nat /\
  w_trace (snd (delete_path host_ok 0%nat sample_path None connected_world)) =
  w_trace connected_world ++
  [EvDeleteInstance 1%nat sample_path WBEM_FLAG_RETURN_IMMEDIATELY None S_OK (Some 2%nat);
   EvGetCallStatus 2%nat WBEM_INFINITE S_OK S_OK].
Proof.
  assert (Hlive : w_objs connected_world !! 0%nat = Some connected_handle)
    by (vm_compute; reflexivity).
  assert (Hconn : wbemServices connected_handle = Some 1%nat) by reflexivity.
  split; [exact Hlive|]. split; [exact Hconn|].
  exact (delete_path_submit_then_wait host_ok 0%nat connected_handle 1%nat sample_path None
           connected_world Hlive Hconn).
Defined.

(** C7: the overload without a context does what the two-argument overload
    does with a null context: the same outcome and the same world after. *)
Theorem delete_path_no_context_same (host : Host) (this : Addr) (_objPath : string)
    (w : World) :
  delete_path_no_context host this _objPath w =
  delete_path host this _objPath ComPtr_null w.
Proof.
  unfold delete_path_no_context, scope.
  destruct (delete_path host this _objPath ComPtr_null w) as [[a|s e|] w1];
    reflexivity.
Qed.

(** C2, as stated, fails: a submit refused with WBEM_E_ACCESS_DENIED and a
    completed call whose reported status is WBEM_E_ACCESS_DENIED fail at
    different stages, and the caller catches the same value in both. *)
Lemma delete_path_completed_caught_as_submit :
  let at_submit :=
    delete_path (with_DeleteInstance WBEM_E_ACCESS_DENIED host_ok)
      0%nat sample_path None connected_world in
  let at_completion :=
    delete_path (with_GetCallStatus (S_OK, WBEM_E_ACCESS_DENIED) host_ok)
      0%nat sample_path None connected_world in
  failure (fst at_submit) = Some (OperationError stage_submit WBEM_E_ACCESS_DENIED) /\
  failure (fst at_completion) = Some (OperationError stage_completed WBEM_E_ACCESS_DENIED) /\
  caught (fst at_submit) = caught (fst at_completion).
Proof. vm_compute. repeat split. Qed.

Section TwoFailures.

Variables (host1 host2 host3 : Host).
Variables (this1 this2 this3 : Addr) (h1 h2 h3 : WmiService) (s1 s2 s3 : ObjId).
Variables (p1 p2 p3 : string) (c1 c2 c3 : ComPtr) (w1 w2 w3 : World).
Hypothesis Hlive1 : w_objs w1 !! this1 = Some h1.
Hypothesis Hconn1 : wbemServices h1 = Some s1.
Hypothesis Hlive2 : w_objs w2 !! this2 = Some h2.
Hypothesis Hconn2 : wbemServices h2 = Some s2.
Hypothesis Hlive3 : w_objs w3 !! this3 = Some h3.
Hypothesis Hconn3 : wbemServices h3 = Some s3.

(** C2, amended: what the caller catches from a failing delete_path is a
    WmiException with the status code, the native operation, the local
    operation WmiService::delete_path and the flag false.  A submit-stage
    failure and a completed-stage failure both name
    IWbemServices::DeleteInstance, so the two values are equal exactly when
    their status codes are equal.  An await-status failure names
    IWbemCallResult::GetCallStatus and differs from both. *)
Theorem delete_path_failure_value (code1 code2 code3 : HRESULT) :
  let submit_failure := fst (delete_path host1 this1 p1 c1 w1) in
  let completed_failure := fst (delete_path host2 this2 p2 c2 w2) in
  let await_failure := fst (delete_path host3 this3 p3 c3 w3) in
  failure submit_failure = Some (OperationError stage_submit code1) ->
  failure completed_failure = Some (OperationError stage_completed code2) ->
  failure await_failure = Some (OperationError stage_await_status code3) ->
  caught submit_failure =
    Some (ntl_WmiException code1 "IWbemServices::DeleteInstance"
            "WmiService::delete_path" false) /\
  caught completed_failure =
    Some (ntl_WmiException code2 "IWbemServices::DeleteInstance"
            "WmiService::delete_path" false) /\
  caught await_failure =
    Some (ntl_WmiException code3 "IWbemCallResult::GetCallStatus"
            "WmiService::delete_path" false) /\
  (caught submit_failure = caught completed_failure <-> code1 = code2) /\
  caught await_failure <> caught submit_failure /\
  caught await_failure <> caught completed_failure.
Proof.
  cbv zeta. intros F1 F2 F3.
  rewrite (delete_path_caught host1 this1 h1 s1 p1 c1 w1 Hlive1 Hconn1 _ _ F1).
  rewrite (delete_path_caught host2 this2 h2 s2 p2 c2 w2 Hlive2 Hconn2 _ _ F2).
  rewrite (delete_path_caught host3 this3 h3 s3 p3 c3 w3 Hlive3 Hconn3 _ _ F3).
  cbn [named_operation].
  repeat split; try congruence; try discriminate.
Qed.

End TwoFailures.

(** ** The connecting constructor *)

(** C3, amended: construction is all-or-nothing.  When the storage at
    [this] holds no object and the object identities not handed out are
    unused, either construction returns, and then the handle at [this] has a
    live locator and a live connection, each with one reference, and the
    connection carries the fixed blanket; or it fails, with
    SubsystemInitError when the guard cannot initialise, ConnectionError at
    the locator-create or connect step, or SecurityConfigurationError at the
    security-configuration step, and then no object exists at [this], every
    reference count is what it was before, and so is every thread's
    initialisation count. *)
Theorem WmiService_ctor_all_or_nothing host tid this _path w :
  w_objs w !! this = None -> fresh_ids w ->
  let run := WmiService_ctor host tid this _path w in
  (exists l s,
     fst run = Returned tt /\
     w_objs (snd run) !! this =
       Some {| coinit := {| guard_thread := tid |}; wbemLocator := Some l;
               wbemServices := Some s |} /\
     ref_count (snd run) l = 1%nat /\ ref_count (snd run) s = 1%nat /\
     w_blanket (snd run) !! s =
       Some {| dwAuthnSvc := RPC_C_AUTHN_WINNT; dwAuthzSvc := RPC_C_AUTHZ_NONE;
               pServerPrincName := None; dwAuthnLevel := RPC_C_AUTHN_LEVEL_CALL;
               dwImpLevel := RPC_C_IMP_LEVEL_IMPERSONATE; pAuthInfo := None;
               dwCapabilities := EOAC_NONE |})
  \/
  (exists code,
     (failure (fst run) = Some (SubsystemInitError code) \/
      failure (fst run) = Some (ConnectionError stage_locator_create code) \/
      failure (fst run) = Some (ConnectionError stage_connect code) \/
      failure (fst run) = Some (SecurityConfigurationError code)) /\
     w_objs (snd run) !! this = None /\
     (forall o, ref_count (snd run) o = ref_count w o) /\
     (forall t, com_count (snd run) t = com_count w t)).
Proof.
  intros Hfree Hfresh. cbv zeta.
  unfold ref_count, com_count, fresh_ids in *.
  destruct w as [refs next cominit blanket objs trace].
  cbn [w_objs w_next w_refs w_cominit] in *.
  assert (Hnext : count refs next = 0%nat)
    by (unfold count; rewrite Hfresh by lia; reflexivity).
  assert (Hsnext : count refs (S next) = 0%nat)
    by (unfold count; rewrite Hfresh by lia; reflexivity).
  destruct (WmiService_ctor host tid this _path _) as [out w'] eqn:Hrun.
  cbn [fst snd]. open_ctor_in Hrun.
  split_answer Hrun host_CoInitializeEx H0.
  { done_run Hrun. right. eexists. split; [left; reflexivity|]. repeat split; auto. }
  split_answer Hrun host_CoCreateInstance H1.
  { done_run Hrun. right. eexists. split; [right; left; reflexivity|].
    split; [apply lookup_delete_eq|]. split; intros; counts. }
  split_answer Hrun host_ConnectServer H2.
  { done_run Hrun. right. eexists. split; [right; right; left; reflexivity|].
    split; [apply lookup_delete_eq|]. split; intros; counts. }
  split_answer Hrun host_CoSetProxyBlanket H3.
  { done_run Hrun. right. eexists. split; [right; right; right; reflexivity|].
    split; [apply lookup_delete_eq|]. split; intros; counts. }
  done_run Hrun.
  left. exists next, (S next). split; [reflexivity|].
  split; [rewrite ?lookup_insert_eq; reflexivity|].
  split; [counts|]. split; [counts|]. apply lookup_insert_eq.
Qed.

(** ** The proxy blanket is left alone *)

Lemma keeps_ret {A} (a : A) : keeps_blanket (ret a).
Proof. intros w. split; reflexivity. Qed.

Lemma keeps_throw {A} s e : keeps_blanket (@throw A s e).
Proof. intros w. split; reflexivity. Qed.

Lemma keeps_fault {A} : keeps_blanket (@fault A).
Proof. intros w. split; reflexivity. Qed.

Lemma keeps_bind {A B} (m : M A) (k : A -> M B) :
  keeps_blanket m -> (forall a, keeps_blanket (k a)) -> keeps_blanket (bind m k).
Proof.
  intros Hm Hk w. unfold bind. specialize (Hm w).
  destruct (m w) as [[a|s e|] w1]; cbn [snd] in *; [|exact Hm|exact Hm].
  destruct (Hk a w1) as [Hb Ht]. destruct Hm as [Hb' Ht'].
  split; congruence.
Qed.

Lemma keeps_scope {A} (m : M A) (d : M unit) :
  keeps_blanket m -> keeps_blanket d -> keeps_blanket (scope m d).
Proof.
  intros Hm Hd w. unfold scope. specialize (Hm w).
  destruct (m w) as [[a|s e|] w1]; cbn [snd] in *; [| |exact Hm];
    destruct (Hd w1) as [Hb Ht]; destruct Hm as [Hb' Ht']; split; congruence.
Qed.

Lemma blanket_events_log (e : Event) (w : World) :
  is_blanket e = false -> blanket_events (log e w) = blanket_events w.
Proof.
  intros He. unfold blanket_events, log. cbn [w_trace].
  rewrite filter_app. cbn. rewrite He.
  destruct (decide (false = true)); [discriminate|]. apply app_nil_r.
Qed.

Lemma keeps_get_obj a : keeps_blanket (get_obj a).
Proof. intros w. unfold get_obj. destruct (w_objs w !! a); split; reflexivity. Qed.

Lemma keeps_put_obj a h : keeps_blanket (put_obj a h).
Proof. intros w. split; reflexivity. Qed.

Lemma keeps_del_obj a : keeps_blanket (del_obj a).
Proof. intros w. split; reflexivity. Qed.

Lemma keeps_deref p : keeps_blanket (deref p).
Proof. destruct p; [apply keeps_ret|apply keeps_fault]. Qed.

Lemma keeps_ComPtr_copy p : keeps_blanket (ComPtr_copy p).
Proof. intros w. destruct p; split; reflexivity. Qed.

Lemma keeps_ComPtr_dtor p : keeps_blanket (ComPtr_dtor p).
Proof. intros w. destruct p; split; reflexivity. Qed.

Lemma keeps_CoInitializeEx host tid : keeps_blanket (CoInitializeEx host tid).
Proof.
  intros w. unfold CoInitializeEx.
  destruct (FAILED _); cbn [snd]; (split; [reflexivity|]);
    apply (blanket_events_log _ w); reflexivity.
Qed.

Lemma keeps_CoUninitialize t : keeps_blanket (CoUninitialize t).
Proof.
  intros w. unfold CoUninitialize. cbn [snd]. split; [reflexivity|].
  apply (blanket_events_log _ w); reflexivity.
Qed.

Lemma keeps_DeleteInstance host s p f c :
  keeps_blanket (IWbemServices_DeleteInstance host s p f c).
Proof.
  intros w. unfold IWbemServices_DeleteInstance.
  destruct (FAILED _); cbn [snd alloc]; (split; [reflexivity|]).
  - apply (blanket_events_log _ w); reflexivity.
  - rewrite blanket_events_log by reflexivity. reflexivity.
Qed.

Lemma keeps_GetCallStatus host c t :
  keeps_blanket (IWbemCallResult_GetCallStatus host c t).
Proof.
  intros w. unfold IWbemCallResult_GetCallStatus. cbn [snd]. split; [reflexivity|].
  apply (blanket_events_log _ w); reflexivity.
Qed.

Create HintDb keeps.
#[local] Hint Resolve keeps_ret keeps_throw keeps_fault keeps_get_obj keeps_put_obj
  keeps_del_obj keeps_deref keeps_ComPtr_copy keeps_ComPtr_dtor keeps_CoInitializeEx
  keeps_CoUninitialize keeps_DeleteInstance keeps_GetCallStatus : keeps.

(** Goes through a computation built from the pieces above. *)
Ltac keeps :=
  repeat first
    [ progress auto with keeps
    | match goal with
      | |- keeps_blanket (scope _ _) => apply keeps_scope
      | |- keeps_blanket (bind _ _) => apply keeps_bind; [|intros]
      end
    | match goal with
      | |- keeps_blanket (let (_, _) := ?x in _) => destruct x
      | |- keeps_blanket (if ?b then _ else _) => destruct b
      | |- keeps_blanket (match ?x with _ => _ end) => destruct x
      end ].

Lemma keeps_ComInitialize_ctor host tid : keeps_blanket (ComInitialize_ctor host tid).
Proof. unfold ComInitialize_ctor. keeps. Qed.

Lemma keeps_destroy_members h : keeps_blanket (destroy_members h).
Proof. unfold destroy_members, ComInitialize_dtor. keeps. Qed.

Lemma keeps_WmiService_copy host tid h : keeps_blanket (WmiService_copy host tid h).
Proof. unfold WmiService_copy. pose proof (keeps_ComInitialize_ctor host tid). keeps. Qed.

Lemma keeps_delete_path host this p c : keeps_blanket (delete_path host this p c).
Proof. unfold delete_path. keeps. Qed.

Lemma keeps_run_call host tid c : keeps_blanket (run_call host tid c).
Proof.
  pose proof (keeps_WmiService_copy host tid).
  pose proof keeps_destroy_members.
  pose proof (keeps_delete_path host).
  destruct c; cbn [run_call];
    unfold WmiService_copy_ctor, WmiService_assign, WmiService_dtor, destroy_object,
      delete_path_no_context, ComPtr_swap; keeps.
Qed.

Lemma keeps_run_calls host cs w :
  w_blanket (run_calls host cs w) = w_blanket w /\
  blanket_events (run_calls host cs w) = blanket_events w.
Proof.
  revert w. induction cs as [|[t c] cs IH]; intros w; cbn [run_calls].
  - split; reflexivity.
  - destruct (IH (snd (run_call host t c w))) as [Hb Ht].
    destruct (keeps_run_call host t c w) as [Hb' Ht'].
    split; congruence.
Qed.

(** C4: a construction that succeeds makes, after the guard and the locator
    creation, the connect and immediately after it one CoSetProxyBlanket on
    the connection it received, with RPC_C_AUTHN_WINNT, RPC_C_AUTHZ_NONE, no
    server principal name, RPC_C_AUTHN_LEVEL_CALL,
    RPC_C_IMP_LEVEL_IMPERSONATE, a null client identity and EOAC_NONE; that
    is the blanket the connection then carries.  No sequence of later calls
    on handles, by any thread and whatever the natives answer, makes another
    CoSetProxyBlanket call or changes a blanket. *)
Theorem WmiService_ctor_blanket_once host tid this _path w :
  fst (WmiService_ctor host tid this _path w) = Returned tt ->
  let w' := snd (WmiService_ctor host tid this _path w) in
  let blanket :=
    {| dwAuthnSvc := RPC_C_AUTHN_WINNT; dwAuthzSvc := RPC_C_AUTHZ_NONE;
       pServerPrincName := None; dwAuthnLevel := RPC_C_AUTHN_LEVEL_CALL;
       dwImpLevel := RPC_C_IMP_LEVEL_IMPERSONATE; pAuthInfo := None;
       dwCapabilities := EOAC_NONE |} in
  exists l s hr_init hr_create hr_connect hr_blanket,
    w_objs w' !! this =
      Some {| coinit := {| guard_thread := tid |}; wbemLocator := Some l;
              wbemServices := Some s |} /\
    w_trace w' = w_trace w ++
      [EvCoInitializeEx tid hr_init;
       EvCoCreateInstance CLSID_WbemLocator IID_IWbemLocator hr_create (Some l);
       EvConnectServer l _path None None None 0 None None hr_connect (Some s);
       EvCoSetProxyBlanket (Some s) blanket hr_blanket] /\
    FAILED hr_connect = false /\ FAILED hr_blanket = false /\
    w_blanket w' !! s = Some blanket /\
    forall (host' : Host) (later : list (ThreadId * Call)),
      blanket_events (run_calls host' later w') = blanket_events w' /\
      w_blanket (run_calls host' later w') = w_blanket w'.
Proof.
  cbv zeta. destruct w as [refs next cominit blanket objs trace].
  destruct (WmiService_ctor host tid this _path _) as [out w'] eqn:Hrun.
  cbn [fst snd w_trace]. open_ctor_in Hrun.
  name_answer Hrun host_CoInitializeEx hr0 H0;
    [done_run Hrun; discriminate|].
  name_answer Hrun host_CoCreateInstance hr1 H1;
    [done_run Hrun; discriminate|].
  name_answer Hrun host_ConnectServer hr2 H2;
    [done_run Hrun; discriminate|].
  name_answer Hrun host_CoSetProxyBlanket hr3 H3;
    [done_run Hrun; discriminate|].
  done_run Hrun.
  intros _. exists next, (S next), hr0, hr1, hr2, hr3.
  split; [rewrite ?lookup_insert_eq; reflexivity|].
  split; [rewrite <- !app_assoc; reflexivity|].
  split; [exact H2|]. split; [exact H3|].
  split; [apply lookup_insert_eq|].
  intros host' later.
  match goal with
  | |- context [run_calls host' later ?W] =>
      destruct (keeps_run_calls host' later W) as [Hb Ht]
  end.
  split; [exact Ht|exact Hb].
Qed.

(** ** Copy and assignment *)

Section Assignment.

Variable host : Host.
Variable tid : ThreadId.
Variables (this _service : Addr) (target source : WmiService).
Variable w : World.
Hypothesis Htarget : w_objs w !! this = Some target.
Hypothesis Hsource : w_objs w !! _service = Some source.

Local Abbreviation hr_init := (host_CoInitializeEx host tid (w_trace w)).

(** The whole effect of an assignment, as seen through the handles, the
    reference counts and the initialisation counts. *)
Lemma WmiService_assign_run :
  let run := WmiService_assign host tid this _service w in
  (forall th, com_count (snd run) th = com_count w th) /\
  (forall a, a <> this -> w_objs (snd run) !! a = w_objs w !! a) /\
  if FAILED hr_init then
    fst run = Threw AtComInitialize (guard_failure hr_init) /\
    fst (WmiService_copy host tid source w) = Threw AtComInitialize (guard_failure hr_init) /\
    w_objs (snd run) = w_objs w /\
    (forall o, ref_count (snd run) o = ref_count w o)
  else
    fst run = Returned tt /\
    fst (WmiService_copy host tid source w) =
      Returned {| coinit := {| guard_thread := tid |};
                  wbemLocator := wbemLocator source;
                  wbemServices := wbemServices source |} /\
    w_objs (snd run) !! this =
      Some {| coinit := coinit target; wbemLocator := wbemLocator source;
              wbemServices := wbemServices source |}.
Proof.
  cbv zeta.
  destruct w as [refs next cominit blanket objs trace].
  destruct target as [tg tl ts], source as [sg sl ss].
  unfold com_count, ref_count. cbn [w_objs w_trace] in *.
  destruct (WmiService_assign host tid this _service _) as [out w'] eqn:Hrun.
  destruct (WmiService_copy host tid _ _) as [cout cw] eqn:Hcopy.
  cbn [fst snd coinit wbemLocator wbemServices].
  open_assign_in Hrun. open_assign_in Hcopy.
  rewrite !Hsource in Hrun. cbv beta iota zeta in Hrun.
  destruct (FAILED (host_CoInitializeEx host tid trace)) eqn:H0;
    on_answer_in Hrun H0; on_answer_in Hcopy H0.
  - done_run Hrun. injection Hcopy as <- _. repeat split; auto.
  - destruct sl as [sl|], ss as [ss|]; cbv beta iota zeta in Hrun, Hcopy;
      rewrite !Htarget in Hrun; on_answer_in Hrun H0;
      destruct tl as [tl|], ts as [ts|]; cbv beta iota zeta in Hrun;
      done_run Hrun; injection Hcopy as <- _;
      (split; [intros; counts|]);
      (split; [intros; rewrite !lookup_insert_ne by congruence; reflexivity|]);
      (split; [reflexivity|]); (split; [reflexivity|]);
      apply lookup_insert_eq.
Qed.

(** C5: the assignment runs the copy constructor for a temporary and then
    exchanges the two pointers with it.  When the copy throws, the assignment
    throws the same exception and the target, every other handle, the
    reference counts and the initialisation counts are as before the call.
    When the copy returns, the assignment returns: the exchange does not
    fail, and the target then holds the temporary's locator and connection
    beside its own guard. *)
Theorem WmiService_assign_strong_guarantee :
  let run := WmiService_assign host tid this _service w in
  let copy := WmiService_copy host tid source w in
  (forall site e, fst copy = Threw site e ->
     fst run = Threw site e /\
     w_objs (snd run) !! this = Some target /\
     w_objs (snd run) = w_objs w /\
     (forall o, ref_count (snd run) o = ref_count w o) /\
     (forall th, com_count (snd run) th = com_count w th)) /\
  (forall temp, fst copy = Returned temp ->
     wbemLocator temp = wbemLocator source /\
     wbemServices temp = wbemServices source /\
     fst run = Returned tt /\
     w_objs (snd run) !! this =
       Some {| coinit := coinit target; wbemLocator := wbemLocator temp;
               wbemServices := wbemServices temp |}) /\
  fst copy <> Fault.
Proof.
  cbv zeta. destruct WmiService_assign_run as (Hcom & _ & Hrun).
  destruct (FAILED hr_init).
  - destruct Hrun as (Hout & Hcopy & Hobjs & Hrefs).
    rewrite Hcopy. split; [|split]; [| |discriminate].
    + intros site e [= <- <-]. rewrite Hobjs. auto.
    + intros temp Hc. discriminate Hc.
  - destruct Hrun as (Hout & Hcopy & Hobjs).
    rewrite Hcopy. split; [|split]; [| |discriminate].
    + intros site e Hc. discriminate Hc.
    + intros temp [= <-]. cbn [wbemLocator wbemServices]. auto.
Qed.

(** C10: an assignment leaves the guard of the target and the guard of the
    source as they were, and leaves every thread's initialisation count as it
    was; when it returns, the target's locator and connection are those of
    the source.  No other handle is touched. *)
Theorem WmiService_assign_keeps_guards :
  let run := WmiService_assign host tid this _service w in
  (exists target', w_objs (snd run) !! this = Some target' /\
     coinit target' = coinit target /\
     (fst run = Returned tt ->
        wbemLocator target' = wbemLocator source /\
        wbemServices target' = wbemServices source)) /\
  (exists source', w_objs (snd run) !! _service = Some source' /\
     coinit source' = coinit source) /\
  (forall th, com_count (snd run) th = com_count w th) /\
  (forall a, a <> this -> w_objs (snd run) !! a = w_objs w !! a).
Proof.
  cbv zeta. destruct WmiService_assign_run as (Hcom & Hothers & Hrun).
  destruct (FAILED hr_init).
  - destruct Hrun as (Hout & _ & Hobjs & _). rewrite Hobjs, Hout.
    split; [exists target; repeat split; auto; discriminate|].
    split; [exists source; auto|]. auto.
  - destruct Hrun as (Hout & _ & Hobjs).
    split; [eexists; split; [exact Hobjs|]; cbn; auto|].
    split; [|auto].
    destruct (decide (_service = this)) as [Heq|Hne].
    + rewrite Heq in *. eexists; split; [exact Hobjs|]. cbn [coinit]. congruence.
    + rewrite Hothers by exact Hne. exists source; auto.
Qed.

End Assignment.

(** C9, as stated, fails: a handle constructed by thread 0 exists, and
    [h = h] executed by thread 1, which has no resources left to initialise
    COM, throws from the guard of the temporary. *)
Lemma self_assignment_can_throw :
  let built := WmiService_ctor host_thread1_exhausted 0%nat 0%nat sample_namespace empty_world in
  fst built = Returned tt /\
  fst (WmiService_assign host_thread1_exhausted 1%nat 0%nat 0%nat (snd built)) =
    Threw AtComInitialize (guard_failure E_OUTOFMEMORY).
Proof. vm_compute. split; reflexivity. Qed.

(** C9, amended: [h = h] returns when the guard of the temporary
    initialises, and otherwise throws the guard's failure.  Either way the
    handle is afterwards what it was, with the same locator and connection,
    so it compares equal to what it was and gives the same pointer; every
    reference count and every initialisation count is as before. *)
Theorem self_assignment_safe (host : Host) (tid : ThreadId) (this : Addr)
    (h : WmiService) (w : World) :
  w_objs w !! this = Some h ->
  let run := WmiService_assign host tid this this w in
  let hr_init := host_CoInitializeEx host tid (w_trace w) in
  fst run = (if FAILED hr_init then Threw AtComInitialize (guard_failure hr_init)
             else Returned tt) /\
  (exists h', w_objs (snd run) !! this = Some h' /\ h' = h /\
     WmiService_eq h' h = true /\ WmiService_get h' = WmiService_get h) /\
  (forall o, ref_count (snd run) o = ref_count w o) /\
  (forall th, com_count (snd run) th = com_count w th).
Proof.
  intros Hlive. cbv zeta.
  assert (Heq : WmiService_eq h h = true).
  { unfold WmiService_eq, ComPtr_eq. rewrite !bool_decide_eq_true_2; reflexivity. }
  destruct w as [refs next cominit blanket objs trace].
  destruct h as [g l s].
  unfold com_count, ref_count. cbn [w_objs w_trace w_refs w_cominit] in *.
  destruct (WmiService_assign host tid this this _) as [out w'] eqn:Hrun.
  cbn [fst snd]. open_assign_in Hrun.
  rewrite !Hlive in Hrun. cbv beta iota zeta in Hrun.
  destruct (FAILED (host_CoInitializeEx host tid trace)) eqn:H0; on_answer_in Hrun H0.
  - done_run Hrun.
    split; [reflexivity|]. split; [eexists; repeat split; eauto|]. auto.
  - destruct l as [l|], s as [s|]; cbv beta iota zeta in Hrun; rewrite !Hlive in Hrun;
      on_answer_in Hrun H0; done_run Hrun;
      (split; [reflexivity|]);
      (split; [eexists; split; [apply lookup_insert_eq|]; repeat split; exact Heq|]);
      split; intros; counts.
Qed.

(** ** Copies and equality *)

Lemma WmiService_copy_ctor_run (host : Host) (tid : ThreadId) (this _service : Addr)
    (source : WmiService) (w : World) :
  w_objs w !! _service = Some source ->
  fst (WmiService_copy_ctor host tid this _service w) = Returned tt ->
  w_objs (snd (WmiService_copy_ctor host tid this _service w)) !! this =
    Some {| coinit := {| guard_thread := tid |}; wbemLocator := wbemLocator source;
            wbemServices := wbemServices source |}.
Proof.
  intros Hsource. destruct w as [refs next cominit blanket objs trace].
  destruct source as [g l s]. cbn [w_objs] in *.
  destruct (WmiService_copy_ctor host tid this _service _) as [out w'] eqn:Hrun.
  cbn [fst snd wbemLocator wbemServices]. open_assign_in Hrun.
  rewrite !Hsource in Hrun. cbv beta iota zeta in Hrun.
  split_answer Hrun host_CoInitializeEx H0;
    [done_run Hrun; discriminate|].
  destruct l, s; cbv beta iota zeta in Hrun; done_run Hrun; intros _;
    apply lookup_insert_eq.
Qed.

Lemma WmiService_eq_spec (a b : WmiService) :
  WmiService_eq a b = true <->
  wbemLocator a = wbemLocator b /\ wbemServices a = wbemServices b.
Proof.
  unfold WmiService_eq, ComPtr_eq. rewrite andb_true_iff, !bool_decide_eq_true.
  reflexivity.
Qed.

(** C6: a copy of a handle compares equal to it; two handles compare equal
    exactly when their locator pointers are the same and their connection
    pointers are the same; [!=] is the negation of [==]; and two handles
    connected one after the other to the same namespace are not equal. *)
Theorem WmiService_copy_equal (host : Host) (tid : ThreadId) (this _service : Addr)
    (h : WmiService) (w : World) :
  w_objs w !! _service = Some h ->
  fst (WmiService_copy_ctor host tid this _service w) = Returned tt ->
  (exists h2, w_objs (snd (WmiService_copy_ctor host tid this _service w)) !! this = Some h2 /\
     WmiService_eq h2 h = true /\ WmiService_ne h2 h = false) /\
  (forall a b, WmiService_eq a b = true <->
     wbemLocator a = wbemLocator b /\ wbemServices a = wbemServices b) /\
  (forall a b, WmiService_ne a b = negb (WmiService_eq a b)) /\
  (fst (WmiService_ctor host_ok 0%nat 0%nat sample_namespace empty_world) = Returned tt /\
   fst (WmiService_ctor host_ok 0%nat 1%nat sample_namespace connected_world) = Returned tt /\
   w_objs two_handles_world !! 0%nat = Some connected_handle /\
   w_objs two_handles_world !! 1%nat = Some second_handle /\
   WmiService_eq connected_handle second_handle = false).
Proof.
  intros Hsource Hok.
  split; [|split; [exact WmiService_eq_spec|split; [reflexivity|]]].
  - eexists. split; [exact (WmiService_copy_ctor_run _ _ _ _ _ _ Hsource Hok)|].
    assert (He : forall g, WmiService_eq
              {| coinit := g; wbemLocator := wbemLocator h;
                 wbemServices := wbemServices h |} h = true)
      by (intros g; apply WmiService_eq_spec; split; reflexivity).
    unfold WmiService_ne. rewrite He. split; reflexivity.
  - vm_compute. repeat split.
Qed.

(** ** The theorems at sample inputs *)

Lemma connected_handle_live : w_objs connected_world !! 0%nat = Some connected_handle.
Proof. vm_compute. reflexivity. Qed.

Lemma second_handle_live : w_objs two_handles_world !! 1%nat = Some second_handle.
Proof. vm_compute. reflexivity. Qed.

Lemma first_handle_still_live :
  w_objs two_handles_world !! 0%nat = Some connected_handle.
Proof. vm_compute. reflexivity. Qed.

Lemma empty_world_fresh : fresh_ids empty_world.
Proof. intros o _. apply lookup_empty. Qed.

(** C2, amended, at three sample calls: a submit refused with
    WBEM_E_ACCESS_DENIED, a completion reporting WBEM_E_NOT_FOUND, and a wait
    that fails with WBEM_E_TRANSPORT_FAILURE. *)
Lemma delete_path_failure_value_witness :
  let submit_failure :=
    fst (delete_path (with_DeleteInstance WBEM_E_ACCESS_DENIED host_ok)
           0%nat sample_path None connected_world) in
  let completed_failure :=
    fst (delete_path (with_GetCallStatus (S_OK, WBEM_E_NOT_FOUND) host_ok)
           0%nat sample_path None connected_world) in
  let await_failure :=
    fst (delete_path (with_GetCallStatus (WBEM_E_TRANSPORT_FAILURE, S_OK) host_ok)
           0%nat sample_path None connected_world) in
  failure submit_failure = Some (OperationError stage_submit WBEM_E_ACCESS_DENIED) /\
  failure completed_failure = Some (OperationError stage_completed WBEM_E_NOT_FOUND) /\
  failure await_failure = Some (OperationError stage_await_status WBEM_E_TRANSPORT_FAILURE) /\
  caught submit_failure <> caught completed_failure /\
  caught await_failure <> caught completed_failure.
Proof.
  cbv zeta.
  assert (Hconn : wbemServices connected_handle = Some 1%nat) by reflexivity.
  assert (F1 : failure (fst (delete_path (with_DeleteInstance WBEM_E_ACCESS_DENIED host_ok)
             0%nat sample_path None connected_world)) =
           Some (OperationError stage_submit WBEM_E_ACCESS_DENIED))
    by (vm_compute; reflexivity).
  assert (F2 : failure (fst (delete_path (with_GetCallStatus (S_OK, WBEM_E_NOT_FOUND) host_ok)
             0%nat sample_path None connected_world)) =
           Some (OperationError stage_completed WBEM_E_NOT_FOUND))
    by (vm_compute; reflexivity).
  assert (F3 : failure (fst (delete_path
             (with_GetCallStatus (WBEM_E_TRANSPORT_FAILURE, S_OK) host_ok)
             0%nat sample_path None connected_world)) =
           Some (OperationError stage_await_status WBEM_E_TRANSPORT_FAILURE))
    by (vm_compute; reflexivity).
  destruct (delete_path_failure_value _ _ _ _ _ _ _ _ _ _ _ _ _ _ _ _ _ _ _ _ _
              connected_handle_live Hconn connected_handle_live Hconn
              connected_handle_live Hconn _ _ _ F1 F2 F3)
    as (_ & _ & _ & Hsame & _ & Hawait).
  split; [exact F1|]. split; [exact F2|]. split; [exact F3|].
  split; [|exact Hawait].
  intros Heq. apply Hsame in Heq. discriminate Heq.
Defined.

(** C3, as stated, fails: on a thread that has no resources left to
    initialise COM the construction fails in the guard, with a failure that
    is neither a ConnectionError nor a SecurityConfigurationError. *)
Lemma construction_can_fail_in_the_guard :
  let run := WmiService_ctor host_thread1_exhausted 1%nat 0%nat sample_namespace empty_world in
  fst run = Threw AtComInitialize (guard_failure E_OUTOFMEMORY) /\
  failure (fst run) = Some (SubsystemInitError E_OUTOFMEMORY).
Proof. vm_compute. split; reflexivity. Qed.

(** C3, amended, at a sample construction: when CoSetProxyBlanket is
    refused, no handle exists at the address and the locator and the
    connection that had been acquired are gone. *)
Lemma WmiService_ctor_all_or_nothing_witness :
  let run := WmiService_ctor (with_CoSetProxyBlanket E_ACCESSDENIED host_ok)
               0%nat 0%nat sample_namespace empty_world in
  w_objs empty_world !! 0%nat = None /\ fresh_ids empty_world /\
  failure (fst run) = Some (SecurityConfigurationError E_ACCESSDENIED) /\
  w_objs (snd run) !! 0%nat = None /\
  ref_count (snd run) 0%nat = 0%nat /\ ref_count (snd run) 1%nat = 0%nat /\
  com_count (snd run) 0%nat = 0%nat.
Proof.
  cbv zeta.
  assert (Hfree : w_objs empty_world !! 0%nat = None) by reflexivity.
  split; [exact Hfree|]. split; [exact empty_world_fresh|].
  split; [vm_compute; reflexivity|].
  destruct (WmiService_ctor_all_or_nothing (with_CoSetProxyBlanket E_ACCESSDENIED host_ok)
              0%nat 0%nat sample_namespace empty_world Hfree empty_world_fresh)
    as [(l & s & Hret & _)|(code & _ & Hnone & Hrefs & Hcom)].
  - vm_compute in Hret. discriminate Hret.
  - split; [exact Hnone|]. rewrite !Hrefs, Hcom. repeat split.
Defined.

(** C4, at a sample construction: on a host where every call succeeds the
    handle at address 0 is connected and its connection carries the fixed
    blanket, also after an assignment, a delete and a destruction. *)
Lemma WmiService_ctor_blanket_once_witness :
  fst (WmiService_ctor host_ok 0%nat 0%nat sample_namespace empty_world) = Returned tt /\
  w_blanket
    (run_calls host_ok
       [(0%nat, call_assign 0%nat 0%nat);
        (0%nat, call_delete_path_no_context 0%nat sample_path);
        (0%nat, call_dtor 0%nat)] connected_world) =
  w_blanket connected_world.
Proof.
  assert (Hok : fst (WmiService_ctor host_ok 0%nat 0%nat sample_namespace empty_world) =
                Returned tt) by (vm_compute; reflexivity).
  split; [exact Hok|].
  destruct (WmiService_ctor_blanket_once host_ok 0%nat 0%nat sample_namespace empty_world Hok)
    as (l & s & h0 & h1 & h2 & h3 & _ & _ & _ & _ & _ & Hlater).
  destruct (Hlater host_ok
              [(0%nat, call_assign 0%nat 0%nat);
               (0%nat, call_delete_path_no_context 0%nat sample_path);
               (0%nat, call_dtor 0%nat)]) as [_ Hb].
  exact Hb.
Defined.

(** C5, at a sample assignment: made by thread 1, which has no resources
    left to initialise COM, assigning the second handle to the first throws
    and leaves the first handle as it was. *)
Lemma WmiService_assign_strong_guarantee_witness :
  w_objs two_handles_world !! 0%nat = Some connected_handle /\
  w_objs two_handles_world !! 1%nat = Some second_handle /\
  fst (WmiService_copy host_thread1_exhausted 1%nat second_handle two_handles_world) =
    Threw AtComInitialize (guard_failure E_OUTOFMEMORY) /\
  w_objs (snd (WmiService_assign host_thread1_exhausted 1%nat 0%nat 1%nat two_handles_world))
    !! 0%nat = Some connected_handle.
Proof.
  split; [exact first_handle_still_live|]. split; [exact second_handle_live|].
  assert (Hcopy : fst (WmiService_copy host_thread1_exhausted 1%nat second_handle
                         two_handles_world) =
                  Threw AtComInitialize (guard_failure E_OUTOFMEMORY))
    by (vm_compute; reflexivity).
  split; [exact Hcopy|].
  destruct (WmiService_assign_strong_guarantee host_thread1_exhausted 1%nat 0%nat 1%nat
              connected_handle second_handle two_handles_world
              first_handle_still_live second_handle_live) as (Hthrow & _ & _).
  destruct (Hthrow _ _ Hcopy) as (_ & Hsame & _). exact Hsame.
Defined.

(** C6, at a sample copy: the copy of the first handle built at address 2
    compares equal to it. *)
Lemma WmiService_copy_equal_witness :
  w_objs two_handles_world !! 0%nat = Some connected_handle /\
  fst (WmiService_copy_ctor host_ok 0%nat 2%nat 0%nat two_handles_world) = Returned tt /\
  exists h2,
    w_objs (snd (WmiService_copy_ctor host_ok 0%nat 2%nat 0%nat two_handles_world))
      !! 2%nat = Some h2 /\
    WmiService_eq h2 connected_handle = true /\
    WmiService_ne h2 connected_handle = false.
Proof.
  assert (Hok : fst (WmiService_copy_ctor host_ok 0%nat 2%nat 0%nat two_handles_world) =
                Returned tt) by (vm_compute; reflexivity).
  split; [exact first_handle_still_live|]. split; [exact Hok|].
  exact (proj1 (WmiService_copy_equal host_ok 0%nat 2%nat 0%nat connected_handle
                  two_handles_world first_handle_still_live Hok)).
Defined.

(** C9, amended, at a sample handle: on a host where every call succeeds,
    [h = h] returns and the handle is what it was. *)
Lemma self_assignment_safe_witness :
  w_objs connected_world !! 0%nat = Some connected_handle /\
  fst (WmiService_assign host_ok 0%nat 0%nat 0%nat connected_world) = Returned tt /\
  w_objs (snd (WmiService_assign host_ok 0%nat 0%nat 0%nat connected_world)) !! 0%nat =
    Some connected_handle.
Proof.
  split; [exact connected_handle_live|].
  destruct (self_assignment_safe host_ok 0%nat 0%nat connected_handle connected_world
              connected_handle_live) as (Hout & (h' & Hh' & -> & _) & _).
  split; [exact Hout|exact Hh'].
Defined.

(** C10, at a sample assignment made by thread 7: the first handle keeps
    the guard thread 0 constructed, takes the second handle's pointers, and
    thread 7 holds no initialisation afterwards. *)
Lemma WmiService_assign_keeps_guards_witness :
  w_objs two_handles_world !! 0%nat = Some connected_handle /\
  w_objs two_handles_world !! 1%nat = Some second_handle /\
  (exists target',
     w_objs (snd (WmiService_assign host_ok 7%nat 0%nat 1%nat two_handles_world)) !! 0%nat =
       Some target' /\
     coinit target' = {| guard_thread := 0%nat |}) /\
  com_count (snd (WmiService_assign host_ok 7%nat 0%nat 1%nat two_handles_world)) 7%nat =
    0%nat.
Proof.
  split; [exact first_handle_still_live|]. split; [exact second_handle_live|].
  destruct (WmiService_assign_keeps_guards host_ok 7%nat 0%nat 1%nat
              connected_handle second_handle two_handles_world
              first_handle_still_live second_handle_live)
    as ((target' & Hlive & Hguard & _) & _ & Hcom & _).
  split; [exists target'; split; [exact Hlive|exact Hguard]|].
  rewrite Hcom. reflexivity.
Defined.

(** * Further properties of the class *)

(** ** Equality *)

(** X9: [operator==] is an equivalence on handles, it does not look at the
    guard, and handles that compare equal give the same pointer through
    [get()] and [operator->]. *)
Theorem WmiService_eq_equivalence :
  (forall a, WmiService_eq a a = true) /\
  (forall a b, WmiService_eq a b = WmiService_eq b a) /\
  (forall a b c, WmiService_eq a b = true -> WmiService_eq b c = true ->
     WmiService_eq a c = true) /\
  (forall g1 g2 l s,
     WmiService_eq {| coinit := g1; wbemLocator := l; wbemServices := s |}
                   {| coinit := g2; wbemLocator := l; wbemServices := s |} = true) /\
  (forall a b, WmiService_eq a b = true -> WmiService_get a = WmiService_get b).
Proof.
  repeat split.
  - intros a. apply WmiService_eq_spec. split; reflexivity.
  - intros a b. destruct (WmiService_eq a b) eqn:Hab, (WmiService_eq b a) eqn:Hba;
      try reflexivity.
    + apply WmiService_eq_spec in Hab as [H1 H2].
      assert (WmiService_eq b a = true) by (apply WmiService_eq_spec; split; congruence).
      congruence.
    + apply WmiService_eq_spec in Hba as [H1 H2].
      assert (WmiService_eq a b = true) by (apply WmiService_eq_spec; split; congruence).
      congruence.
  - intros a b c Hab Hbc. apply WmiService_eq_spec in Hab as [H1 H2].
    apply WmiService_eq_spec in Hbc as [H3 H4].
    apply WmiService_eq_spec. split; congruence.
  - intros g1 g2 l s. apply WmiService_eq_spec. split; reflexivity.
  - intros a b Hab. apply WmiService_eq_spec in Hab as [_ H2]. exact H2.
Qed.

(** ** delete_path through handles that share a connection *)

(** X10: A delete made through one of two live handles that compare equal has
    the same outcome, and leaves the same world, as the same delete made
    through the other. *)
Theorem delete_path_through_equal_handles (host : Host) (this1 this2 : Addr)
    (h1 h2 : WmiService) (_objPath : string) (_context : ComPtr) (w : World) :
  w_objs w !! this1 = Some h1 ->
  w_objs w !! this2 = Some h2 ->
  WmiService_eq h1 h2 = true ->
  delete_path host this1 _objPath _context w = delete_path host this2 _objPath _context w.
Proof.
  intros H1 H2 Heq. apply WmiService_eq_spec in Heq as [_ Hs].
  unfold delete_path, bind, get_obj. rewrite H1, H2, Hs. reflexivity.
Qed.

(** X11: the call result of a delete is given back on every path: when the
    identities not handed out are unused, a delete through a live, connected
    handle leaves every reference count, every initialisation count, every
    blanket and every handle as it found them. *)
Theorem delete_path_leaves_no_reference (host : Host) (this : Addr) (h : WmiService)
    (services : ObjId) (_objPath : string) (_context : ComPtr) (w : World) :
  w_objs w !! this = Some h ->
  wbemServices h = Some services ->
  fresh_ids w ->
  let w' := snd (delete_path host this _objPath _context w) in
  (forall o, ref_count w' o = ref_count w o) /\
  w_cominit w' = w_cominit w /\
  w_blanket w' = w_blanket w /\
  w_objs w' = w_objs w.
Proof.
  intros Hlive Hconn Hfresh. cbv zeta.
  rewrite (delete_path_run host this h services _objPath _context w Hlive Hconn).
  assert (Hnext : count (w_refs w) (w_next w) = 0%nat)
    by (unfold count; rewrite Hfresh by lia; reflexivity).
  destruct (FAILED _); cbn [snd].
  - repeat split.
  - unfold ref_count, Release, after_submit, log, alloc, set_refs.
    cbn [w_refs w_cominit w_blanket w_objs snd].
    split; [|repeat split]. intros o. counts.
Qed.

(** Settles a goal on counts where pointers are compared too. *)
Ltac tally :=
  repeat first
    [ rewrite count_decr
    | rewrite count_incr
    | rewrite count_insert
    | rewrite count_delete ];
  repeat match goal with
    | |- context [decide (?a = ?b)] => destruct (decide (a = b)); simplify_eq
    end;
  cbn [Nat.pred]; try reflexivity; try lia.

(** ** Copies *)

Section Copy.

Variable host : Host.
Variable tid : ThreadId.
Variables (this _service : Addr) (source : WmiService).
Variable w : World.
Hypothesis Hsource : w_objs w !! _service = Some source.

Local Abbreviation hr_init := (host_CoInitializeEx host tid (w_trace w)).

(** The whole effect of the copy constructor. *)
Lemma copy_ctor_summary :
  let run := WmiService_copy_ctor host tid this _service w in
  w_trace (snd run) = w_trace w ++ [EvCoInitializeEx tid hr_init] /\
  w_next (snd run) = w_next w /\
  w_blanket (snd run) = w_blanket w /\
  if FAILED hr_init then
    fst run = Threw AtComInitialize (guard_failure hr_init) /\
    w_objs (snd run) = w_objs w /\
    w_refs (snd run) = w_refs w /\
    w_cominit (snd run) = w_cominit w
  else
    fst run = Returned tt /\
    w_objs (snd run) =
      <[this := {| coinit := {| guard_thread := tid |};
                   wbemLocator := wbemLocator source;
                   wbemServices := wbemServices source |}]> (w_objs w) /\
    (forall o, ref_count (snd run) o =
       (ref_count w o + refers (wbemLocator source) o + refers (wbemServices source) o)%nat) /\
    (forall t, com_count (snd run) t =
       if decide (tid = t) then S (com_count w t) else com_count w t).
Proof.
  cbv zeta. destruct w as [refs next cominit blanket objs trace].
  destruct source as [g l s]. unfold ref_count, com_count, refers.
  cbn [w_objs w_trace w_refs w_cominit w_next w_blanket] in *.
  destruct (WmiService_copy_ctor host tid this _service _) as [out w'] eqn:Hrun.
  cbn [fst snd wbemLocator wbemServices]. open_assign_in Hrun.
  rewrite !Hsource in Hrun. cbv beta iota zeta in Hrun.
  destruct (FAILED (host_CoInitializeEx host tid trace)) eqn:H0; on_answer_in Hrun H0.
  - done_run Hrun. repeat split.
  - destruct l as [l|], s as [s|]; cbv beta iota zeta in Hrun; done_run Hrun;
      (split; [reflexivity|]); (split; [reflexivity|]); (split; [reflexivity|]);
      (split; [reflexivity|]); (split; [reflexivity|]);
      (split; [|intros t; tally]); intros o; tally.
Qed.

(** X3: the copy constructor makes one native call, the CoInitializeEx of its
    guard: it creates no locator, connects to nothing and sets no blanket.
    It returns exactly when that call does not fail; when it fails, the
    handles, the reference counts and the initialisation counts are as
    before.  When it returns, the new handle holds the pointers of the
    source, each object has gained one reference for each pointer of the
    source that refers to it, and the calling thread holds one more
    initialisation. *)
Theorem WmiService_copy_ctor_effect :
  let run := WmiService_copy_ctor host tid this _service w in
  w_trace (snd run) = w_trace w ++ [EvCoInitializeEx tid hr_init] /\
  w_next (snd run) = w_next w /\
  w_blanket (snd run) = w_blanket w /\
  if FAILED hr_init then
    fst run = Threw AtComInitialize (guard_failure hr_init) /\
    w_objs (snd run) = w_objs w /\
    w_refs (snd run) = w_refs w /\
    w_cominit (snd run) = w_cominit w
  else
    fst run = Returned tt /\
    w_objs (snd run) =
      <[this := {| coinit := {| guard_thread := tid |};
                   wbemLocator := wbemLocator source;
                   wbemServices := wbemServices source |}]> (w_objs w) /\
    (forall o, ref_count (snd run) o =
       (ref_count w o + refers (wbemLocator source) o + refers (wbemServices source) o)%nat) /\
    (forall t, com_count (snd run) t =
       if decide (tid = t) then S (com_count w t) else com_count w t).
Proof. exact copy_ctor_summary. Qed.

End Copy.

(** ** Destruction *)

(** The whole effect of the destructor. *)
Lemma dtor_summary (this : Addr) (h : WmiService) (w : World) :
  w_objs w !! this = Some h ->
  let run := WmiService_dtor this w in
  fst run = Returned tt /\
  w_objs (snd run) = delete this (w_objs w) /\
  (forall o, ref_count (snd run) o =
     (ref_count w o - refers (wbemServices h) o - refers (wbemLocator h) o)%nat) /\
  (forall t, com_count (snd run) t =
     if decide (guard_thread (coinit h) = t) then Nat.pred (com_count w t)
     else com_count w t) /\
  w_trace (snd run) = w_trace w ++ [EvCoUninitialize (guard_thread (coinit h))] /\
  w_next (snd run) = w_next w /\
  w_blanket (snd run) = w_blanket w.
Proof.
  intros Hlive. cbv zeta. destruct w as [refs next cominit blanket objs trace].
  destruct h as [[g] l s]. unfold ref_count, com_count, refers.
  cbn [w_objs w_trace w_refs w_cominit w_next w_blanket] in *.
  destruct (WmiService_dtor this _) as [out w'] eqn:Hrun.
  cbn [fst snd coinit wbemLocator wbemServices guard_thread]. open_assign_in Hrun.
  rewrite !Hlive in Hrun. cbv beta iota zeta in Hrun.
  cbn [coinit wbemLocator wbemServices guard_thread] in Hrun.
  destruct l as [l|], s as [s|]; cbv beta iota in Hrun; done_run Hrun;
    (split; [reflexivity|]); (split; [reflexivity|]);
    (split; [intros o; tally|]); (split; [intros t; tally|]); repeat split.
Qed.


Section CopyThenDestroy.

Variable host : Host.
Variable tid : ThreadId.
Variables (this _service : Addr) (source : WmiService).
Variable w : World.
Hypothesis Hsource : w_objs w !! _service = Some source.
Hypothesis Hfree : w_objs w !! this = None.
Hypothesis Hcopied : fst (WmiService_copy_ctor host tid this _service w) = Returned tt.

Local Abbreviation copied := (snd (WmiService_copy_ctor host tid this _service w)).

Lemma copy_succeeded : FAILED (host_CoInitializeEx host tid (w_trace w)) = false.
Proof.
  destruct (copy_ctor_summary host tid this _service source w Hsource)
    as (_ & _ & _ & Heff).
  destruct (FAILED _); [|reflexivity].
  destruct Heff as (Hout & _). rewrite Hout in Hcopied. discriminate Hcopied.
Qed.

Lemma copy_is_live :
  w_objs copied !! this =
    Some {| coinit := {| guard_thread := tid |}; wbemLocator := wbemLocator source;
            wbemServices := wbemServices source |} /\
  w_objs copied !! _service = Some source /\
  this <> _service.
Proof.
  destruct (copy_ctor_summary host tid this _service source w Hsource)
    as (_ & _ & _ & Heff).
  rewrite copy_succeeded in Heff. destruct Heff as (_ & Hobjs & _).
  assert (Hne : this <> _service) by congruence.
  rewrite Hobjs. split; [apply lookup_insert_eq|].
  split; [rewrite lookup_insert_ne by exact Hne; exact Hsource|exact Hne].
Qed.


(** X6: A copy built where no object was survives the destruction of the handle
    it was copied from: it keeps the locator and the connection, and every
    reference count is what it was before the copy, so the native objects
    the source kept alive are still alive. *)
Theorem copy_outlives_source :
  let run := WmiService_dtor _service copied in
  fst run = Returned tt /\
  w_objs (snd run) !! _service = None /\
  w_objs (snd run) !! this =
    Some {| coinit := {| guard_thread := tid |}; wbemLocator := wbemLocator source;
            wbemServices := wbemServices source |} /\
  (forall o, ref_count (snd run) o = ref_count w o).
Proof.
  cbv zeta. destruct copy_is_live as (Hlive & Hsrc & Hne).
  destruct (dtor_summary _service _ copied Hsrc)
    as (Hout & Hobjs & Hrefs & _).
  destruct (copy_ctor_summary host tid this _service source w Hsource)
    as (_ & _ & _ & Heff).
  rewrite copy_succeeded in Heff. destruct Heff as (_ & _ & Hrefs1 & _).
  split; [exact Hout|]. rewrite Hobjs.
  split; [apply lookup_delete_eq|].
  split; [rewrite lookup_delete_ne by congruence; exact Hlive|].
  intros o. rewrite Hrefs, Hrefs1. lia.
Qed.

End CopyThenDestroy.

(** ** The connecting constructor, step by step *)

Section Construction.

Variable host : Host.
Variable tid : ThreadId.
Variables (this : Addr) (_path : string).
Variable w : World.

Local Abbreviation hr_init := (host_CoInitializeEx host tid (w_trace w)).
Local Abbreviation ev_init := (EvCoInitializeEx tid hr_init).
Local Abbreviation hr_create :=
  (host_CoCreateInstance host CLSID_WbemLocator IID_IWbemLocator (w_trace w ++ [ev_init])).
Local Abbreviation ev_create :=
  (EvCoCreateInstance CLSID_WbemLocator IID_IWbemLocator hr_create).
Local Abbreviation hr_connect :=
  (host_ConnectServer host (w_next w) _path
     ((w_trace w ++ [ev_init]) ++ [ev_create (Some (w_next w))])).
Local Abbreviation ev_connect :=
  (EvConnectServer (w_next w) _path None None None 0 None None hr_connect).
Local Abbreviation the_blanket :=
  {| dwAuthnSvc := RPC_C_AUTHN_WINNT; dwAuthzSvc := RPC_C_AUTHZ_NONE;
     pServerPrincName := None; dwAuthnLevel := RPC_C_AUTHN_LEVEL_CALL;
     dwImpLevel := RPC_C_IMP_LEVEL_IMPERSONATE; pAuthInfo := None;
     dwCapabilities := EOAC_NONE |}.
Local Abbreviation hr_blanket :=
  (host_CoSetProxyBlanket host (Some (S (w_next w))) the_blanket
     (((w_trace w ++ [ev_init]) ++ [ev_create (Some (w_next w))]) ++
      [ev_connect (Some (S (w_next w)))])).
Local Abbreviation ev_blanket :=
  (EvCoSetProxyBlanket (Some (S (w_next w))) the_blanket hr_blanket).

(** The whole effect of the connecting constructor. *)
Lemma ctor_summary :
  let run := WmiService_ctor host tid this _path w in
  if FAILED hr_init then
    fst run = Threw AtComInitialize (guard_failure hr_init) /\
    w_trace (snd run) = w_trace w ++ [ev_init]
  else if FAILED hr_create then
    fst run = Threw AtCreateInstance (createInstance_failure hr_create) /\
    w_trace (snd run) = w_trace w ++ [ev_init; ev_create None; EvCoUninitialize tid]
  else if FAILED hr_connect then
    fst run = Threw AtConnectServer
                (ntl_Exception hr_connect "IWbemLocator::ConnectServer"
                   "WmiService::connect" false) /\
    w_trace (snd run) =
      w_trace w ++ [ev_init; ev_create (Some (w_next w)); ev_connect None;
                    EvCoUninitialize tid]
  else if FAILED hr_blanket then
    fst run = Threw AtSetProxyBlanket
                (ntl_Exception hr_blanket "CoSetProxyBlanket" "WmiService::connect" false) /\
    w_trace (snd run) =
      w_trace w ++ [ev_init; ev_create (Some (w_next w));
                    ev_connect (Some (S (w_next w))); ev_blanket;
                    EvCoUninitialize tid]
  else
    fst run = Returned tt /\
    w_trace (snd run) =
      w_trace w ++ [ev_init; ev_create (Some (w_next w));
                    ev_connect (Some (S (w_next w))); ev_blanket] /\
    w_objs (snd run) !! this =
      Some {| coinit := {| guard_thread := tid |}; wbemLocator := Some (w_next w);
              wbemServices := Some (S (w_next w)) |} /\
    (forall a, a <> this -> w_objs (snd run) !! a = w_objs w !! a) /\
    (forall o, ref_count (snd run) o =
       if decide (o = w_next w \/ o = S (w_next w)) then 1%nat else ref_count w o) /\
    (forall t, com_count (snd run) t =
       if decide (tid = t) then S (com_count w t) else com_count w t) /\
    w_next (snd run) = S (S (w_next w)).
Proof.
  cbv zeta. destruct w as [refs next cominit blanket objs trace].
  unfold ref_count, com_count.
  cbn [w_objs w_next w_refs w_cominit w_trace].
  destruct (WmiService_ctor host tid this _path _) as [out w'] eqn:Hrun.
  cbn [fst snd]. open_ctor_in Hrun.
  split_answer Hrun host_CoInitializeEx H0.
  { done_run Hrun. split; reflexivity. }
  split_answer Hrun host_CoCreateInstance H1.
  { done_run Hrun. split; [reflexivity|]. rewrite <- !app_assoc. reflexivity. }
  split_answer Hrun host_ConnectServer H2.
  { done_run Hrun. split; [reflexivity|]. rewrite <- !app_assoc. reflexivity. }
  split_answer Hrun host_CoSetProxyBlanket H3.
  { done_run Hrun. split; [reflexivity|]. rewrite <- !app_assoc. reflexivity. }
  done_run Hrun.
  split; [reflexivity|].
  split; [rewrite <- !app_assoc; reflexivity|].
  split; [apply lookup_insert_eq|].
  split; [intros a Ha; rewrite !lookup_insert_ne by congruence; reflexivity|].
  split; [|split; [|reflexivity]].
  - intros o. rewrite !count_insert.
    destruct (decide (o = next \/ o = S next)) as [[->| ->]|Hn];
      repeat match goal with
        | |- context [decide (?a = ?b)] => destruct (decide (a = b)); try lia
        end; try reflexivity; exfalso; apply Hn; lia.
  - intros t. tally.
Qed.

(** X1: the constructor makes its native calls in the order CoInitializeEx,
    CoCreateInstance, ConnectServer, CoSetProxyBlanket and stops at the first
    one that fails: it throws with that call's status code and makes no
    further native call but the CoUninitialize of its guard, and not even
    that when the guard itself failed.  The connect is made on the locator
    just created, and the blanket is set on the connection just received. *)
Theorem WmiService_ctor_stops_at_first_failure :
  let run := WmiService_ctor host tid this _path w in
  if FAILED hr_init then
    fst run = Threw AtComInitialize (guard_failure hr_init) /\
    w_trace (snd run) = w_trace w ++ [ev_init]
  else if FAILED hr_create then
    fst run = Threw AtCreateInstance (createInstance_failure hr_create) /\
    w_trace (snd run) = w_trace w ++ [ev_init; ev_create None; EvCoUninitialize tid]
  else if FAILED hr_connect then
    fst run = Threw AtConnectServer
                (ntl_Exception hr_connect "IWbemLocator::ConnectServer"
                   "WmiService::connect" false) /\
    w_trace (snd run) =
      w_trace w ++ [ev_init; ev_create (Some (w_next w)); ev_connect None;
                    EvCoUninitialize tid]
  else if FAILED hr_blanket then
    fst run = Threw AtSetProxyBlanket
                (ntl_Exception hr_blanket "CoSetProxyBlanket" "WmiService::connect" false) /\
    w_trace (snd run) =
      w_trace w ++ [ev_init; ev_create (Some (w_next w));
                    ev_connect (Some (S (w_next w))); ev_blanket;
                    EvCoUninitialize tid]
  else
    fst run = Returned tt /\
    w_trace (snd run) =
      w_trace w ++ [ev_init; ev_create (Some (w_next w));
                    ev_connect (Some (S (w_next w))); ev_blanket].
Proof.
  cbv zeta. pose proof ctor_summary as Hsum. cbv zeta in Hsum.
  destruct (FAILED hr_init); [exact Hsum|].
  destruct (FAILED hr_create); [exact Hsum|].
  destruct (FAILED hr_connect); [exact Hsum|].
  destruct (FAILED hr_blanket); [exact Hsum|].
  destruct Hsum as (Hout & Htrace & _). split; assumption.
Qed.


End Construction.

(** ** Assignment *)

(** X8: an assignment between live handles that returns leaves the target
    comparing equal to the source, and giving the source's pointer through
    [get()] and [operator->]. *)
Theorem assign_then_equal (host : Host) (tid : ThreadId) (this _service : Addr)
    (target source : WmiService) (w : World) :
  w_objs w !! this = Some target ->
  w_objs w !! _service = Some source ->
  fst (WmiService_assign host tid this _service w) = Returned tt ->
  exists target' source',
    w_objs (snd (WmiService_assign host tid this _service w)) !! this = Some target' /\
    w_objs (snd (WmiService_assign host tid this _service w)) !! _service = Some source' /\
    WmiService_eq target' source' = true /\
    WmiService_ne target' source' = false /\
    WmiService_get target' = WmiService_get source.
Proof.
  intros Ht Hs Hok.
  destruct (WmiService_assign_run host tid this _service target source w Ht Hs)
    as (_ & Hothers & Hrun).
  destruct (FAILED _).
  - destruct Hrun as (Hout & _). rewrite Hout in Hok. discriminate Hok.
  - destruct Hrun as (_ & _ & Hobjs).
    assert (Heq : forall g g', WmiService_eq
              {| coinit := g; wbemLocator := wbemLocator source;
                 wbemServices := wbemServices source |}
              {| coinit := g'; wbemLocator := wbemLocator source;
                 wbemServices := wbemServices source |} = true)
      by (intros; apply WmiService_eq_spec; split; reflexivity).
    destruct (decide (_service = this)) as [->|Hne].
    + eexists _, _. split; [exact Hobjs|]. split; [exact Hobjs|].
      unfold WmiService_ne. rewrite Heq. repeat split.
    + exists {| coinit := coinit target; wbemLocator := wbemLocator source;
                wbemServices := wbemServices source |}, source.
      split; [exact Hobjs|].
      split; [rewrite Hothers by exact Hne; exact Hs|].
      destruct source as [g l s]. unfold WmiService_ne.
      cbn [wbemLocator wbemServices]. rewrite Heq. repeat split.
Qed.

(** X7: an assignment between live handles makes no native call but the
    CoInitializeEx of the temporary's guard and, when that did not fail, the
    matching CoUninitialize: it creates nothing and connects to nothing.
    When it returns, every object has gained one reference for each pointer
    of the source that refers to it and lost one for each pointer the target
    held that referred to it. *)
Theorem WmiService_assign_effect (host : Host) (tid : ThreadId) (this _service : Addr)
    (target source : WmiService) (w : World) :
  w_objs w !! this = Some target ->
  w_objs w !! _service = Some source ->
  let run := WmiService_assign host tid this _service w in
  let hr := host_CoInitializeEx host tid (w_trace w) in
  w_next (snd run) = w_next w /\
  w_trace (snd run) =
    w_trace w ++ (if FAILED hr then [EvCoInitializeEx tid hr]
                  else [EvCoInitializeEx tid hr; EvCoUninitialize tid]) /\
  (FAILED hr = false ->
   forall o, ref_count (snd run) o =
     (ref_count w o + refers (wbemLocator source) o + refers (wbemServices source) o
      - refers (wbemServices target) o - refers (wbemLocator target) o)%nat).
Proof.
  intros Htarget Hsource. cbv zeta.
  destruct w as [refs next cominit blanket objs trace].
  destruct target as [tg tl ts], source as [sg sl ss].
  unfold ref_count, refers. cbn [w_objs w_trace w_next w_refs] in *.
  destruct (WmiService_assign host tid this _service _) as [out w'] eqn:Hrun.
  cbn [fst snd wbemLocator wbemServices]. open_assign_in Hrun.
  rewrite !Hsource in Hrun. cbv beta iota zeta in Hrun.
  destruct (FAILED (host_CoInitializeEx host tid trace)) eqn:H0; on_answer_in Hrun H0.
  - done_run Hrun. split; [reflexivity|]. split; [reflexivity|]. discriminate.
  - destruct sl as [sl|], ss as [ss|]; cbv beta iota zeta in Hrun;
      rewrite !Htarget in Hrun; on_answer_in Hrun H0;
      destruct tl as [tl|], ts as [ts|]; cbv beta iota zeta in Hrun; done_run Hrun;
      (split; [reflexivity|]);
      (split; [rewrite <- !app_assoc; reflexivity|]);
      intros _ o; tally.
Qed.

(** ** The state the class keeps *)

Lemma lookup_decr_None (m : gmap nat nat) (k o : nat) :
  m !! o = None -> decr k m !! o = None.
Proof.
  intros Ho. unfold decr. destruct (count m k) as [|[|n]] eqn:E.
  - rewrite lookup_delete. destruct (decide (k = o)); [reflexivity|exact Ho].
  - rewrite lookup_delete. destruct (decide (k = o)); [reflexivity|exact Ho].
  - destruct (decide (k = o)) as [->|Hne].
    + unfold count in E. rewrite Ho in E. discriminate E.
    + rewrite lookup_insert_ne by exact Hne. exact Ho.
Qed.

Lemma lookup_incr_None (m : gmap nat nat) (k o : nat) :
  k <> o -> m !! o = None -> incr k m !! o = None.
Proof. intros Hne Ho. unfold incr. rewrite lookup_insert_ne by exact Hne. exact Ho. Qed.

Lemma allocated_mono (w w' : World) (p : ComPtr) :
  (w_next w <= w_next w')%nat -> allocated w p -> allocated w' p.
Proof. intros Hle (o & -> & Ho). exists o. split; [reflexivity|lia]. Qed.

(** Settles the two halves of [well_formed] for the world a run ends in. *)
Ltac fresh_goal :=
  repeat first
    [ apply lookup_decr_None
    | apply lookup_incr_None; [lia|]
    | rewrite lookup_insert_ne by lia
    | rewrite lookup_delete_ne by lia ];
  auto with lia.

Lemma well_formed_delete_path (host : Host) (this : Addr) (_objPath : string)
    (_context : ComPtr) (w : World) :
  well_formed w -> well_formed (snd (delete_path host this _objPath _context w)).
Proof.
  intros [Hfresh Hhandles].
  destruct (w_objs w !! this) as [h|] eqn:Hlive;
    [|unfold delete_path, bind, get_obj; rewrite Hlive; split; assumption].
  destruct (Hhandles this h Hlive) as (_ & s & Hs & _).
  rewrite (delete_path_run host this h s _objPath _context w Hlive Hs).
  destruct (FAILED _); cbn [snd]; [split; assumption|].
  unfold well_formed, fresh_ids, allocated in *.
  destruct w as [refs next cominit blanket objs trace].
  unfold Release, after_submit, log, alloc, set_refs.
  cbn [w_objs w_next w_refs snd] in *. split.
  - intros o Ho. fresh_goal.
  - intros a h' Ha. destruct (Hhandles a h' Ha) as ((l & -> & Hl) & (s' & -> & Hs')).
    split; eexists; (split; [reflexivity|lia]).
Qed.

Ltac handle_goal Hhandles :=
  let a := fresh "a" in let h' := fresh "h'" in let Ha := fresh "Ha" in
  intros a h' Ha;
  repeat match type of Ha with
    | context [<[_:=_]> _ !! _] => rewrite lookup_insert in Ha
    | context [delete _ _ !! _] => rewrite lookup_delete in Ha
    | context [decide (?x = ?y)] => destruct (decide (x = y)); simplify_eq
    end;
  cbn [wbemLocator wbemServices];
  try (destruct (Hhandles _ _ Ha) as ((? & -> & ?) & (? & -> & ?)));
  split; eexists; (split; [reflexivity | lia]).

Lemma well_formed_dtor (this : Addr) (w : World) :
  well_formed w -> well_formed (snd (WmiService_dtor this w)).
Proof.
  intros [Hfresh Hhandles]. unfold well_formed, fresh_ids, allocated in *.
  destruct w as [refs next cominit blanket objs trace].
  cbn [w_objs w_next w_refs] in *.
  destruct (WmiService_dtor this _) as [out w'] eqn:Hrun.
  cbn [snd]. open_assign_in Hrun.
  destruct (objs !! this) as [[g l s]|] eqn:Hlive; cbv beta iota zeta in Hrun;
    [|done_run Hrun; split; assumption].
  pose proof (Hhandles _ _ Hlive) as Hh. cbn [wbemLocator wbemServices] in Hh.
  destruct Hh as ((l' & -> & Hl) & (s' & -> & Hs')).
  cbn [coinit wbemLocator wbemServices guard_thread] in Hrun.
  cbv beta iota zeta in Hrun. done_run Hrun. split.
  - intros o Ho. fresh_goal.
  - handle_goal Hhandles.
Qed.

Lemma well_formed_copy_ctor (host : Host) (tid : ThreadId) (this _service : Addr)
    (w : World) :
  well_formed w -> well_formed (snd (WmiService_copy_ctor host tid this _service w)).
Proof.
  intros [Hfresh Hhandles]. unfold well_formed, fresh_ids, allocated in *.
  destruct w as [refs next cominit blanket objs trace].
  cbn [w_objs w_next w_refs] in *.
  destruct (WmiService_copy_ctor host tid this _service _) as [out w'] eqn:Hrun.
  cbn [snd]. open_assign_in Hrun.
  destruct (objs !! _service) as [[g l s]|] eqn:Hsource; cbv beta iota zeta in Hrun;
    [|done_run Hrun; split; assumption].
  pose proof (Hhandles _ _ Hsource) as Hh. cbn [wbemLocator wbemServices] in Hh.
  destruct Hh as ((l' & -> & Hl) & (s' & -> & Hs')).
  split_answer Hrun host_CoInitializeEx H0; done_run Hrun;
    [split; assumption|].
  split.
  - intros o Ho. fresh_goal.
  - handle_goal Hhandles.
Qed.

Lemma well_formed_assign (host : Host) (tid : ThreadId) (this _service : Addr)
    (w : World) :
  well_formed w -> well_formed (snd (WmiService_assign host tid this _service w)).
Proof.
  intros [Hfresh Hhandles]. unfold well_formed, fresh_ids, allocated in *.
  destruct w as [refs next cominit blanket objs trace].
  cbn [w_objs w_next w_refs] in *.
  destruct (WmiService_assign host tid this _service _) as [out w'] eqn:Hrun.
  cbn [snd]. open_assign_in Hrun.
  destruct (objs !! _service) as [[g l s]|] eqn:Hsource; cbv beta iota zeta in Hrun;
    [|done_run Hrun; split; assumption].
  pose proof (Hhandles _ _ Hsource) as Hh. cbn [wbemLocator wbemServices] in Hh.
  destruct Hh as ((l' & -> & Hl) & (s' & -> & Hs')).
  split_answer Hrun host_CoInitializeEx H0;
    [done_run Hrun; split; assumption|].
  destruct (objs !! this) as [[tg tl ts]|] eqn:Htarget; on_answer_in Hrun H0.
  - pose proof (Hhandles _ _ Htarget) as Ht. cbn [wbemLocator wbemServices] in Ht.
    destruct Ht as ((tl' & -> & Htl) & (ts' & -> & Hts)).
    cbv beta iota zeta in Hrun. done_run Hrun. split.
    + intros o Ho. fresh_goal.
    + handle_goal Hhandles.
  - done_run Hrun. split.
    + intros o Ho. fresh_goal.
    + handle_goal Hhandles.
Qed.

Lemma well_formed_ctor (host : Host) (tid : ThreadId) (this : Addr) (_path : string)
    (w : World) :
  well_formed w -> well_formed (snd (WmiService_ctor host tid this _path w)).
Proof.
  intros [Hfresh Hhandles]. unfold well_formed, fresh_ids, allocated in *.
  destruct w as [refs next cominit blanket objs trace].
  cbn [w_objs w_next w_refs] in *.
  destruct (WmiService_ctor host tid this _path _) as [out w'] eqn:Hrun.
  cbn [snd]. open_ctor_in Hrun.
  split_answer Hrun host_CoInitializeEx H0;
    [done_run Hrun; split; assumption|].
  split_answer Hrun host_CoCreateInstance H1.
  { done_run Hrun. split; [intros o Ho; fresh_goal|handle_goal Hhandles]. }
  split_answer Hrun host_ConnectServer H2.
  { done_run Hrun. split; [intros o Ho; fresh_goal|handle_goal Hhandles]. }
  split_answer Hrun host_CoSetProxyBlanket H3.
  { done_run Hrun. split; [intros o Ho; fresh_goal|handle_goal Hhandles]. }
  done_run Hrun. split; [intros o Ho; fresh_goal|handle_goal Hhandles].
Qed.

Lemma delete_path_no_context_world (host : Host) (this : Addr) (_objPath : string)
    (w : World) :
  snd (delete_path_no_context host this _objPath w) =
  snd (delete_path host this _objPath ComPtr_null w).
Proof.
  unfold delete_path_no_context, scope.
  destruct (delete_path host this _objPath ComPtr_null w) as [[a|s e|] w1]; reflexivity.
Qed.

Lemma well_formed_run_op (host : Host) (tid : ThreadId) (o : Op) (w : World) :
  well_formed w -> well_formed (snd (run_op host tid o w)).
Proof.
  intros Hwf. destruct o as [this _path|[this src|this src|this|this p c|this p]];
    cbn [run_op run_call].
  - apply well_formed_ctor, Hwf.
  - apply well_formed_copy_ctor, Hwf.
  - apply well_formed_assign, Hwf.
  - apply well_formed_dtor, Hwf.
  - apply well_formed_delete_path, Hwf.
  - rewrite delete_path_no_context_world. apply well_formed_delete_path, Hwf.
Qed.

Lemma well_formed_run_ops (host : Host) (ops : list (ThreadId * Op)) (w : World) :
  well_formed w -> well_formed (run_ops host ops w).
Proof.
  revert w. induction ops as [|[t o] ops IH]; intros w Hwf; cbn [run_ops].
  - exact Hwf.
  - apply IH, well_formed_run_op, Hwf.
Qed.

Lemma well_formed_empty : well_formed empty_world.
Proof.
  split; [exact empty_world_fresh|].
  intros a h Ha. cbn in Ha. rewrite lookup_empty in Ha. discriminate Ha.
Qed.

(** X12: whatever member functions are called, by whatever threads, in whatever
    order and with whatever outcomes, starting from a world with no handle:
    the object identities not handed out stay unused, and every handle that
    exists has a locator pointer and a connection pointer that are not null
    and refer to objects that were handed out. *)
Theorem reachable_worlds_well_formed (host : Host) (ops : list (ThreadId * Op)) :
  well_formed (run_ops host ops empty_world).
Proof. apply well_formed_run_ops, well_formed_empty. Qed.

(** X13: in a world reached from the empty one by member-function calls, a delete
    through any handle that exists never dereferences a null pointer: it
    returns, or throws from one of the three throw statements of
    delete_path. *)
Theorem delete_path_defined_on_reachable (host host' : Host)
    (ops : list (ThreadId * Op)) (this : Addr) (h : WmiService)
    (_objPath : string) (_context : ComPtr) :
  let w := run_ops host ops empty_world in
  w_objs w !! this = Some h ->
  let out := fst (delete_path host' this _objPath _context w) in
  out = Returned tt \/
  (exists code, out = Threw AtDeleteInstance
     (ntl_WmiException code "IWbemServices::DeleteInstance" "WmiService::delete_path" false)) \/
  (exists code, out = Threw AtGetCallStatus
     (ntl_WmiException code "IWbemCallResult::GetCallStatus" "WmiService::delete_path" false)) \/
  (exists code, out = Threw AtCallStatus
     (ntl_WmiException code "IWbemServices::DeleteInstance" "WmiService::delete_path" false)).
Proof.
  cbv zeta. intros Hlive.
  destruct (well_formed_run_ops host ops empty_world well_formed_empty) as [_ Hhandles].
  destruct (Hhandles this h Hlive) as (_ & s & Hs & _).
  rewrite (delete_path_run host' this h s _objPath _context _ Hlive Hs).
  destruct (FAILED _); [right; left; eexists; reflexivity|].
  destruct (FAILED _); [right; right; left; eexists; reflexivity|].
  destruct (FAILED _); [right; right; right; eexists; reflexivity|].
  left. reflexivity.
Qed.

(** ** The further properties at sample inputs *)

Lemma copied_handle_live : w_objs copied_world !! 2%nat = Some copied_handle.
Proof. vm_compute. reflexivity. Qed.

Lemma first_handle_live_beside_copy :
  w_objs copied_world !! 0%nat = Some connected_handle.
Proof. vm_compute. reflexivity. Qed.

Lemma address_2_free : w_objs two_handles_world !! 2%nat = None.
Proof. vm_compute. reflexivity. Qed.

Lemma connected_world_fresh : fresh_ids connected_world.
Proof.
  exact (proj1 (well_formed_run_ops host_ok [(0%nat, op_ctor 0%nat sample_namespace)]
                  empty_world well_formed_empty)).
Qed.

(** Equality is transitive from the first handle through its copy and
    back. *)
Lemma WmiService_eq_equivalence_witness :
  WmiService_eq connected_handle copied_handle = true /\
  WmiService_eq copied_handle connected_handle = true /\
  WmiService_eq connected_handle connected_handle = true.
Proof.
  assert (H1 : WmiService_eq connected_handle copied_handle = true) by reflexivity.
  assert (H2 : WmiService_eq copied_handle connected_handle = true) by reflexivity.
  split; [exact H1|]. split; [exact H2|].
  destruct WmiService_eq_equivalence as (_ & _ & Htrans & _).
  exact (Htrans _ _ _ H1 H2).
Defined.

(** A delete through the copy at address 2 is the delete through the first
    handle. *)
Lemma delete_path_through_equal_handles_witness :
  w_objs copied_world !! 0%nat = Some connected_handle /\
  w_objs copied_world !! 2%nat = Some copied_handle /\
  WmiService_eq connected_handle copied_handle = true /\
  delete_path host_ok 0%nat sample_path None copied_world =
  delete_path host_ok 2%nat sample_path None copied_world.
Proof.
  assert (Heq : WmiService_eq connected_handle copied_handle = true) by reflexivity.
  split; [exact first_handle_live_beside_copy|]. split; [exact copied_handle_live|].
  split; [exact Heq|].
  exact (delete_path_through_equal_handles host_ok 0%nat 2%nat connected_handle
           copied_handle sample_path None copied_world
           first_handle_live_beside_copy copied_handle_live Heq).
Defined.

(** After a delete on the connected handle the connection has the one
    reference it had. *)
Lemma delete_path_leaves_no_reference_witness :
  w_objs connected_world !! 0%nat = Some connected_handle /\
  wbemServices connected_handle = Some 1%nat /\
  fresh_ids connected_world /\
  ref_count (snd (delete_path host_ok 0%nat sample_path None connected_world)) 1%nat =
    1%nat /\
  ref_count (snd (delete_path host_ok 0%nat sample_path None connected_world)) 2%nat =
    0%nat.
Proof.
  assert (Hconn : wbemServices connected_handle = Some 1%nat) by reflexivity.
  split; [exact connected_handle_live|]. split; [exact Hconn|].
  split; [exact connected_world_fresh|].
  destruct (delete_path_leaves_no_reference host_ok 0%nat connected_handle 1%nat
              sample_path None connected_world connected_handle_live Hconn
              connected_world_fresh) as (Hrefs & _).
  rewrite !Hrefs. split; reflexivity.
Defined.

(** The copy of the first handle at address 2 makes the one call. *)
Lemma WmiService_copy_ctor_effect_witness :
  w_objs two_handles_world !! 0%nat = Some connected_handle /\
  w_trace copied_world = w_trace two_handles_world ++ [EvCoInitializeEx 0%nat S_OK].
Proof.
  split; [exact first_handle_still_live|].
  exact (proj1 (WmiService_copy_ctor_effect host_ok 0%nat 2%nat 0%nat connected_handle
                  two_handles_world first_handle_still_live)).
Defined.



(** Copying the first handle to address 2 and destroying the first handle:
    the connection keeps its one reference. *)
Lemma copy_outlives_source_witness :
  w_objs two_handles_world !! 0%nat = Some connected_handle /\
  w_objs two_handles_world !! 2%nat = None /\
  fst (WmiService_copy_ctor host_ok 0%nat 2%nat 0%nat two_handles_world) = Returned tt /\
  w_objs (snd (WmiService_dtor 0%nat copied_world)) !! 2%nat = Some copied_handle /\
  ref_count (snd (WmiService_dtor 0%nat copied_world)) 1%nat =
    ref_count two_handles_world 1%nat.
Proof.
  assert (Hok : fst (WmiService_copy_ctor host_ok 0%nat 2%nat 0%nat two_handles_world) =
                Returned tt) by (vm_compute; reflexivity).
  split; [exact first_handle_still_live|]. split; [exact address_2_free|].
  split; [exact Hok|].
  destruct (copy_outlives_source host_ok 0%nat 2%nat 0%nat connected_handle
              two_handles_world first_handle_still_live address_2_free Hok)
    as (_ & _ & Hlive & Hrefs).
  split; [exact Hlive|apply Hrefs].
Defined.


(** Assigning the second handle to the first. *)
Lemma assign_then_equal_witness :
  w_objs two_handles_world !! 0%nat = Some connected_handle /\
  w_objs two_handles_world !! 1%nat = Some second_handle /\
  fst (WmiService_assign host_ok 0%nat 0%nat 1%nat two_handles_world) = Returned tt /\
  exists target' source',
    w_objs (snd (WmiService_assign host_ok 0%nat 0%nat 1%nat two_handles_world)) !! 0%nat =
      Some target' /\
    w_objs (snd (WmiService_assign host_ok 0%nat 0%nat 1%nat two_handles_world)) !! 1%nat =
      Some source' /\
    WmiService_eq target' source' = true /\
    WmiService_ne target' source' = false /\
    WmiService_get target' = WmiService_get second_handle.
Proof.
  assert (Hok : fst (WmiService_assign host_ok 0%nat 0%nat 1%nat two_handles_world) =
                Returned tt) by (vm_compute; reflexivity).
  split; [exact first_handle_still_live|]. split; [exact second_handle_live|].
  split; [exact Hok|].
  exact (assign_then_equal host_ok 0%nat 0%nat 1%nat connected_handle second_handle
           two_handles_world first_handle_still_live second_handle_live Hok).
Defined.

(** Assigning the second handle to the first: the first connection loses
    its reference and the second gains one. *)
Lemma WmiService_assign_effect_witness :
  w_objs two_handles_world !! 0%nat = Some connected_handle /\
  w_objs two_handles_world !! 1%nat = Some second_handle /\
  ref_count (snd (WmiService_assign host_ok 0%nat 0%nat 1%nat two_handles_world)) 1%nat =
    0%nat /\
  ref_count (snd (WmiService_assign host_ok 0%nat 0%nat 1%nat two_handles_world)) 3%nat =
    2%nat.
Proof.
  split; [exact first_handle_still_live|]. split; [exact second_handle_live|].
  destruct (WmiService_assign_effect host_ok 0%nat 0%nat 1%nat connected_handle
              second_handle two_handles_world first_handle_still_live second_handle_live)
    as (_ & _ & Hrefs).
  rewrite !(Hrefs eq_refl). split; vm_compute; reflexivity.
Defined.

(** A delete through the second of two constructed handles is defined. *)
Lemma delete_path_defined_on_reachable_witness :
  let w := run_ops host_ok [(0%nat, op_ctor 0%nat sample_namespace);
                            (0%nat, op_ctor 1%nat sample_namespace)] empty_world in
  w_objs w !! 1%nat = Some second_handle /\
  fst (delete_path host_ok 1%nat sample_path None w) <> Fault.
Proof.
  cbv zeta.
  assert (Hlive : w_objs (run_ops host_ok [(0%nat, op_ctor 0%nat sample_namespace);
                                           (0%nat, op_ctor 1%nat sample_namespace)]
                            empty_world) !! 1%nat = Some second_handle)
    by (vm_compute; reflexivity).
  split; [exact Hlive|].
  destruct (delete_path_defined_on_reachable host_ok host_ok
              [(0%nat, op_ctor 0%nat sample_namespace);
               (0%nat, op_ctor 1%nat sample_namespace)]
              1%nat second_handle sample_path None Hlive)
    as [H|[[c H]|[[c H]|[c H]]]]; rewrite H; discriminate.
Defined.
